(** * The streaming response transcoder of server.js

    A shallow embedding of the stream handlers that server.js installs on
    the upstream response (lines 193-257): the carry-over buffer and line
    split, the per-line decoding, the reasoning/content merger and the
    writes to the caller's response.

    Representation.  A raw chunk is a byte string.  A JavaScript string is
    represented by the bytes of its UTF-8 encoding, so [res.write] of a
    string appends exactly its representation to the sink.  The patterns the
    handler searches for (the line feed, the data prefix, the sentinel) are
    ASCII, so the string operations below act on the representation as the
    JavaScript ones act on the string. *)

From Stdlib Require Import String Ascii List Bool Arith NArith Lia.
Import ListNotations.
Local Open Scope list_scope.
Local Open Scope string_scope.

(** ** JavaScript string operations used by the handler *)

Module JsString.

(** The line feed character, written '\n' in the source. *)
Definition LF : ascii := "010"%char.

Definition NL : string := String LF EmptyString.

(** [s.startsWith(p)] *)
Definition startsWith (p s : string) : bool := prefix p s.

(** [s.includes(p)]: p occurs at some position of s. *)
Fixpoint includes (p s : string) : bool :=
  prefix p s ||
  match s with
  | EmptyString => false
  | String _ r => includes p r
  end.

(** [s.slice(n)] for a non-negative n: s without its first n characters. *)
Fixpoint slice (n : nat) (s : string) : string :=
  match n, s with
  | O, _ => s
  | S _, EmptyString => EmptyString
  | S k, String _ r => slice k r
  end.

(** [s.split('\n')]: the segments between line feeds; never an empty array. *)
Fixpoint split_nl (s : string) : list string :=
  match s with
  | EmptyString => [EmptyString]
  | String c r =>
      if Ascii.eqb c LF then EmptyString :: split_nl r
      else match split_nl r with
           | [] => [String c EmptyString]
           | h :: t => String c h :: t
           end
  end.

(** Whether a line feed occurs in s. *)
Fixpoint has_lf (s : string) : bool :=
  match s with
  | EmptyString => false
  | String c r => Ascii.eqb c LF || has_lf r
  end.

(** Truthiness of a string: only the empty string is falsy. *)
Definition nonempty (s : string) : bool :=
  match s with
  | EmptyString => false
  | String _ _ => true
  end.

(** Text written with an apostrophe wherever the JSON text has a double
    quote, to keep JSON literals readable. *)
Fixpoint dq (s : string) : string :=
  match s with
  | EmptyString => EmptyString
  | String c r => String (if Ascii.eqb c "'"%char then "034"%char else c) (dq r)
  end.

End JsString.
Export JsString.

(** ** [chunk.toString()]: UTF-8 decoding with replacement

    The chunk is a Buffer; [toString()] decodes it as UTF-8 on its own,
    following the WHATWG decoder: an ill-formed or truncated sequence becomes
    one U+FFFD.  A decoded character is kept as the bytes that encode it. *)

Module Utf8.

Record decoder := {
  needed : nat;       (* continuation bytes still expected *)
  lower : N;          (* bounds on the next continuation byte *)
  upper : N;
  pending : string    (* bytes of the sequence read so far *)
}.

Definition start : decoder :=
  {| needed := 0; lower := 0x80; upper := 0xBF; pending := EmptyString |}.

(** U+FFFD as encoded in UTF-8. *)
Definition REPLACEMENT : string :=
  String "239"%char (String "191"%char (String "189"%char EmptyString)).

Definition between (lo n hi : N) : bool := (lo <=? n)%N && (n <=? hi)%N.

(** A byte read when no sequence is in progress. *)
Definition lead (b : ascii) : string * decoder :=
  let n := N_of_ascii b in
  if (n <=? 0x7F)%N then (String b EmptyString, start)
  else if between 0xC2 n 0xDF then
    (EmptyString,
     {| needed := 1; lower := 0x80; upper := 0xBF; pending := String b EmptyString |})
  else if between 0xE0 n 0xEF then
    (EmptyString,
     {| needed := 2;
        lower := if (n =? 0xE0)%N then 0xA0 else 0x80;
        upper := if (n =? 0xED)%N then 0x9F else 0xBF;
        pending := String b EmptyString |})
  else if between 0xF0 n 0xF4 then
    (EmptyString,
     {| needed := 3;
        lower := if (n =? 0xF0)%N then 0x90 else 0x80;
        upper := if (n =? 0xF4)%N then 0x8F else 0xBF;
        pending := String b EmptyString |})
  else (REPLACEMENT, start).

(** One byte: the text it completes, and the decoder afterwards.  A byte
    that cannot continue the sequence in progress ends it with U+FFFD and
    is then read again as a first byte. *)
Definition step (d : decoder) (b : ascii) : string * decoder :=
  match needed d with
  | O => lead b
  | S k =>
      if between (lower d) (N_of_ascii b) (upper d) then
        let seq := pending d ++ String b EmptyString in
        match k with
        | O => (seq, start)
        | S _ => (EmptyString,
                  {| needed := k; lower := 0x80; upper := 0xBF; pending := seq |})
        end
      else
        let '(out, d') := lead b in (REPLACEMENT ++ out, d')
  end.

(** End of the chunk: a sequence still in progress becomes U+FFFD. *)
Definition flush (d : decoder) : string :=
  match needed d with
  | O => EmptyString
  | S _ => REPLACEMENT
  end.

Fixpoint run (d : decoder) (bytes : string) : string :=
  match bytes with
  | EmptyString => flush d
  | String b r => let '(out, d') := step d b in out ++ run d' r
  end.

(** The text completed while reading the bytes, without the final flush. *)
Fixpoint emitted (d : decoder) (bytes : string) : string :=
  match bytes with
  | EmptyString => EmptyString
  | String b r => fst (step d b) ++ emitted (snd (step d b)) r
  end.

(** The decoder after the bytes, without the final flush. *)
Fixpoint after (d : decoder) (bytes : string) : decoder :=
  match bytes with
  | EmptyString => d
  | String b r => after (snd (step d b)) r
  end.

Definition toString (chunk : string) : string := run start chunk.

(** The chunk ends on a character boundary: no sequence is in progress
    when its last byte has been read. *)
Definition ends_on_boundary (chunk : string) : bool :=
  Nat.eqb (needed (after start chunk)) 0.

(** The bytes are well-formed UTF-8 for a decoder in state d: every byte
    is one the decoder accepts where it stands, a first byte or the
    continuation it expects, and no sequence is in progress at the end. *)
Fixpoint well_formed_from (d : decoder) (bytes : string) : bool :=
  match bytes with
  | EmptyString => Nat.eqb (needed d) 0
  | String b r =>
      let n := N_of_ascii b in
      match needed d with
      | O => (n <=? 0x7F)%N || between 0xC2 n 0xDF || between 0xE0 n 0xEF ||
             between 0xF0 n 0xF4
      | S _ => between (lower d) n (upper d)
      end && well_formed_from (snd (step d b)) r
  end.

Definition well_formed (chunk : string) : bool := well_formed_from start chunk.

End Utf8.

(** ** The frame splitter (lines 193, 197-199) *)

Module Splitter.

(** [lines.pop() || ''] and what is left in [lines]. *)
Definition pop (lines : list string) : list string * string :=
  (removelast lines, last lines EmptyString).

(** One data event on a carry-over buffer: the complete lines, and the new
    carry-over.
<<
    buffer += chunk.toString();
    const lines = buffer.split('\n');
    buffer = lines.pop() || '';
>> *)
Definition feed (buffer chunk : string) : list string * string :=
  pop (split_nl (buffer ++ Utf8.toString chunk)).

(** The bytes of a sequence of chunks, as one chunk. *)
Definition whole (chunks : list string) : string :=
  fold_right append EmptyString chunks.

(** The lines handed on over a sequence of data events, in order, and the
    carry-over after the last one. *)
Fixpoint feed_all (buffer : string) (chunks : list string) : list string * string :=
  match chunks with
  | [] => ([], buffer)
  | c :: cs =>
      let '(ls, b) := feed buffer c in
      let '(ls', b') := feed_all b cs in
      ((ls ++ ls')%list, b')
  end.

End Splitter.

(** ** Values produced by [JSON.parse]

    An object is the list of its properties in enumeration order.  A number
    is kept as the text JavaScript prints for it, which is all the handler
    can observe of it: whether it is zero, and its text in a concatenation. *)

Module Json.

#[local] Set Warnings "-register-all".

Inductive json : Type :=
| JNull
| JBool (b : bool)
| JNum (text : string)
| JStr (s : string)
| JArr (items : list json)
| JObj (props : list (string * json)).

(** A JavaScript value that may be [undefined]. *)
Definition value := option json.

Definition undefined : value := None.

(** Truthiness.  Falsy: undefined, null, false, 0 and the empty string. *)
Definition truthy (v : json) : bool :=
  match v with
  | JNull => false
  | JBool b => b
  | JNum t => negb (String.eqb t "0")
  | JStr s => nonempty s
  | JArr _ => true
  | JObj _ => true
  end.

Definition truthy_value (v : value) : bool :=
  match v with
  | None => false
  | Some x => truthy x
  end.

(** The string a value becomes when it is concatenated to a string, for a
    value that can be converted to one (see [convertible]). *)
Fixpoint toText (v : json) : string :=
  match v with
  | JNull => "null"
  | JBool true => "true"
  | JBool false => "false"
  | JNum t => t
  | JStr s => s
  | JArr items =>
      (fix join (l : list json) : string :=
         match l with
         | [] => EmptyString
         | x :: r =>
             (match x with JNull => EmptyString | _ => toText x end) ++
             (match r with [] => EmptyString | _ :: _ => "," ++ join r end)
         end) items
  | JObj _ => "[object Object]"
  end.

Definition toText_value (v : value) : string :=
  match v with
  | None => "undefined"
  | Some x => toText x
  end.

(** Whether a value can be converted to a string.  The conversion of an
    object calls its [toString], and a parsed object with a property of
    that name has a value there that cannot be called: the conversion throws a
    TypeError.  An array converts its elements. *)
Fixpoint convertible (v : json) : bool :=
  match v with
  | JObj props =>
      negb (existsb (fun p => String.eqb (fst p) "toString") props)
  | JArr items =>
      (fix all (l : list json) : bool :=
         match l with
         | [] => true
         | x :: r => convertible x && all r
         end) items
  | _ => true
  end.

Definition convertible_value (v : value) : bool :=
  match v with
  | None => true
  | Some x => convertible x
  end.

(** Own properties of an object. *)
Fixpoint obj_get (k : string) (props : list (string * json)) : value :=
  match props with
  | [] => None
  | (k', v) :: r => if String.eqb k' k then Some v else obj_get k r
  end.

(** Assignment keeps the place of an existing property and appends a new one. *)
Fixpoint obj_set (k : string) (x : json) (props : list (string * json)) :
  list (string * json) :=
  match props with
  | [] => [(k, x)]
  | (k', v) :: r =>
      if String.eqb k' k then (k', x) :: r else (k', v) :: obj_set k x r
  end.

Definition obj_delete (k : string) (props : list (string * json)) :
  list (string * json) :=
  filter (fun p => negb (String.eqb (fst p) k)) props.

(** The value of the first property named k, replaced by its image. *)
Fixpoint obj_update (k : string) (f : json -> json) (props : list (string * json)) :
  list (string * json) :=
  match props with
  | [] => []
  | (k', v) :: r =>
      if String.eqb k' k then (k', f v) :: r else (k', v) :: obj_update k f r
  end.

(** [v.name] for a value that is neither null nor undefined and a name that
    is no index and no built-in property of arrays and strings: only an
    object can have it. *)
Definition get (name : string) (v : json) : value :=
  match v with
  | JObj props => obj_get name props
  | _ => None
  end.

(** [v[0]]: the first element of an array, the property 0 of an object, the
    first character of a string (of which the handler observes only that
    it is a string with no property delta). *)
Definition get0 (v : json) : value :=
  match v with
  | JArr items => hd_error items
  | JObj props => obj_get "0" props
  | JStr (String c _) => Some (JStr (String c EmptyString))
  | _ => None
  end.

(** Optional chaining [v?.p]: undefined when v is null or undefined. *)
Definition chain (v : value) (p : json -> value) : value :=
  match v with
  | None => None
  | Some JNull => None
  | Some x => p x
  end.

(** [v.name = x].  On a primitive the assignment is dropped (the script is
    not in strict mode); on an array it adds a property that
    [JSON.stringify] does not print. *)
Definition set (name : string) (x : json) (v : json) : json :=
  match v with
  | JObj props => JObj (obj_set name x props)
  | _ => v
  end.

(** [delete v.name] *)
Definition delete (name : string) (v : json) : json :=
  match v with
  | JObj props => JObj (obj_delete name props)
  | _ => v
  end.

(** The object reached by [v.name], modified in place. *)
Definition update (name : string) (f : json -> json) (v : json) : json :=
  match v with
  | JObj props => JObj (obj_update name f props)
  | _ => v
  end.

(** The object reached by [v[0]], modified in place. *)
Definition update0 (f : json -> json) (v : json) : json :=
  match v with
  | JArr (x :: r) => JArr (f x :: r)
  | JObj props => JObj (obj_update "0" f props)
  | _ => v
  end.

End Json.
Export Json.

(** ** The stream handlers (lines 193-257) *)

Definition THINK_OPEN : string := "<think>" ++ NL.
Definition THINK_CLOSE : string := "</think>" ++ NL ++ NL.
Definition DATA_PREFIX : string := "data: ".
Definition DONE : string := "[DONE]".

(** What the closure of the handlers holds between events. *)
Record stream_state := {
  buffer : string;
  reasoningStarted : bool
}.

(** The caller's response: every [res.write] in order, and [res.end]. *)
Record response := {
  written : list string;
  ended : bool
}.

(** Markers and text as the merger puts them into [combinedContent]. *)
Inductive piece :=
| Open
| Close
| Text (s : string).

(** The global [JSON] of the runtime: [JSON.parse], with None for a thrown
    SyntaxError, and [JSON.stringify]. *)
Class JSON := {
  JSON_parse : string -> option json;
  JSON_stringify : json -> string
}.

Section Transcoder.

Context {js : JSON}.

(** The constant of line 25.  The source sets it to false; the handler is
    modelled for both values, since the branch of lines 214-234 is written
    for the value true. *)
Variable SHOW_REASONING : bool.

(** [data.choices?.[0]?.delta] *)
Definition delta_of (data : json) : value :=
  chain (chain (get "choices" data) get0) (get "delta").

(** A modification of the object [data.choices[0].delta] seen from [data]. *)
Definition on_delta (f : json -> json) (data : json) : json :=
  update "choices" (update0 (update "delta" f)) data.

(** [content || ''] *)
Definition or_empty (content : value) : json :=
  match content with
  | Some c => if truthy c then c else JStr EmptyString
  | None => JStr EmptyString
  end.

(** Lines 215-229: [combinedContent] and the flag afterwards.  The
    concatenations of lines 218, 225 and 228 throw a TypeError when an operand
    cannot be converted to a string: the value is then None, and the flag is
    as the throw leaves it, raised already when line 225 throws after line
    219.  Line 221 assigns the reasoning value itself, not its text. *)
Definition merge (reasoning content : value) (started : bool) : option json * bool :=
  match
    (if truthy_value reasoning && negb started then
       if convertible_value reasoning
       then Some (JStr (THINK_OPEN ++ toText_value reasoning), true)
       else None
     else
       match reasoning with
       | Some r => if truthy r then Some (r, started) else Some (JStr EmptyString, started)
       | None => Some (JStr EmptyString, started)
       end)
  with
  | None => (None, started)
  | Some (combinedContent, started1) =>
      if truthy_value content && started1 then
        if convertible_value content && convertible combinedContent then
          (Some (JStr (toText combinedContent ++ THINK_CLOSE ++ toText_value content)),
           false)
        else (None, started1)
      else if truthy_value content then
        if convertible_value content && convertible combinedContent then
          (Some (JStr (toText combinedContent ++ toText_value content)), started1)
        else (None, started1)
      else (Some combinedContent, started1)
  end.

(** Lines 211-238: the object after the branch on the toggle, or None when
    the branch throws, and the flag. *)
Definition translate (data delta : json) (started : bool) : option json * bool :=
  let reasoning := get "reasoning_content" delta in
  let content := get "content" delta in
  if SHOW_REASONING then
    match merge reasoning content started with
    | (Some combinedContent, started') =>
        if truthy combinedContent then
          (Some (on_delta
                   (fun d => delete "reasoning_content" (set "content" combinedContent d))
                   data),
           started')
        else (Some data, started')
    | (None, started') => (None, started')
    end
  else
    (Some (on_delta (fun d => delete "reasoning_content" (set "content" (or_empty content) d))
             data),
     started).

(** Lines 209-240, the body of the try block: what it writes, or None when
    it throws, and the flag it leaves.  It throws in [JSON.parse], in
    [data.choices] when the parsed value is null, and in the concatenations of
    the merger; only the last can come after the flag was raised. *)
Definition try_line (line : string) (started : bool) : option (list string) * bool :=
  match JSON_parse (slice 6 line) with
  | None => (None, started)
  | Some JNull => (None, started)
  | Some data =>
      let '(data', started') :=
        match delta_of data with
        | Some delta =>
            if truthy delta then translate data delta started else (Some data, started)
        | None => (Some data, started)
        end in
      match data' with
      | Some printed => (Some [DATA_PREFIX ++ JSON_stringify printed ++ NL ++ NL], started')
      | None => (None, started')
      end
  end.

(** Lines 201-246, the callback of [lines.forEach]: what it writes for one
    line, and the flag afterwards.  The catch block writes the line as it
    came and leaves the flag as the try block left it. *)
Definition handle_line (line : string) (started : bool) : list string * bool :=
  if startsWith DATA_PREFIX line then
    if includes DONE line then ([line ++ NL ++ NL], started)
    else
      match try_line line started with
      | (Some w, started') => (w, started')
      | (None, started') => ([line ++ NL ++ NL], started')
      end
  else ([], started).

(** [lines.forEach(...)] *)
Fixpoint handle_lines (lines : list string) (started : bool) : list string * bool :=
  match lines with
  | [] => ([], started)
  | l :: ls =>
      let '(w, s) := handle_line l started in
      let '(w', s') := handle_lines ls s in
      ((w ++ w')%list, s')
  end.

(** Lines 196-247, the handler of a data event. *)
Definition on_data (chunk : string) (st : stream_state) (res : response) :
  stream_state * response :=
  let '(lines, buffer') := Splitter.feed (buffer st) chunk in
  let '(w, started') := handle_lines lines (reasoningStarted st) in
  ({| buffer := buffer'; reasoningStarted := started' |},
   {| written := (written res ++ w)%list; ended := ended res |}).

(** Lines 249-252 and 254-257, the handlers of the end and error events:
    [res.end()] and nothing else. *)
Definition on_end (st : stream_state) (res : response) : stream_state * response :=
  (st, {| written := written res; ended := true |}).

Definition on_error (st : stream_state) (res : response) : stream_state * response :=
  (st, {| written := written res; ended := true |}).

(** Lines 193-194: the state when the handlers are installed. *)
Definition initial : stream_state :=
  {| buffer := EmptyString; reasoningStarted := false |}.

Definition fresh : response := {| written := []; ended := false |}.

(** The data events of a stream, in order. *)
Fixpoint pump (chunks : list string) (st : stream_state) (res : response) :
  stream_state * response :=
  match chunks with
  | [] => (st, res)
  | c :: cs => let '(st', res') := on_data c st res in pump cs st' res'
  end.

(** A stream that ends normally: its data events, then the end event. *)
Definition stream (chunks : list string) : stream_state * response :=
  let '(st, res) := pump chunks initial fresh in on_end st res.

(** *** The markers of a run, for the ordering invariant *)

(** [merge], keeping apart the pieces it concatenates; no piece when it
    throws, since nothing of it is written then.  The text of line 225 is
    added to [combinedContent], which is the reasoning value itself after
    line 221: the conversion of that value can throw as well. *)
Definition merge_pieces (reasoning content : value) (started : bool) :
  list piece * bool :=
  match
    (if truthy_value reasoning && negb started then
       if convertible_value reasoning
       then Some ([Open; Text (toText_value reasoning)], true)
       else None
     else if truthy_value reasoning then Some ([Text (toText_value reasoning)], started)
     else Some ([], started))
  with
  | None => ([], started)
  | Some (pieces, started1) =>
      if truthy_value content && started1 then
        if convertible_value content && convertible_value reasoning then
          ((pieces ++ [Close; Text (toText_value content)])%list, false)
        else ([], started1)
      else if truthy_value content then
        if convertible_value content && convertible_value reasoning then
          ((pieces ++ [Text (toText_value content)])%list, started1)
        else ([], started1)
      else (pieces, started1)
  end.

Definition render_piece (p : piece) : string :=
  match p with
  | Open => THINK_OPEN
  | Close => THINK_CLOSE
  | Text s => s
  end.

Fixpoint render (ps : list piece) : string :=
  match ps with
  | [] => EmptyString
  | p :: r => render_piece p ++ render r
  end.

(** How many open markers and close markers a sequence of pieces holds. *)
Fixpoint opens (ps : list piece) : nat :=
  match ps with
  | [] => 0
  | Open :: r => S (opens r)
  | _ :: r => opens r
  end.

Fixpoint closes (ps : list piece) : nat :=
  match ps with
  | [] => 0
  | Close :: r => S (closes r)
  | _ :: r => closes r
  end.

(** The markers read from a given flag: an open marker needs the flag down
    and raises it, a close marker needs it up and lowers it.  The flag
    afterwards, or None when a marker comes out of turn. *)
Fixpoint alternates (started : bool) (ps : list piece) : option bool :=
  match ps with
  | [] => Some started
  | Open :: r => if started then None else alternates true r
  | Close :: r => if started then alternates false r else None
  | Text _ :: r => alternates started r
  end.

(** The pieces the merger produces for one line: those of [merge] when the
    line reaches it, none otherwise. *)
Definition line_pieces (line : string) (started : bool) : list piece :=
  if startsWith DATA_PREFIX line && negb (includes DONE line) && SHOW_REASONING then
    match JSON_parse (slice 6 line) with
    | Some data =>
        match data, delta_of data with
        | JNull, _ => []
        | _, Some delta =>
            if truthy delta then
              fst (merge_pieces (get "reasoning_content" delta) (get "content" delta) started)
            else []
        | _, None => []
        end
    | None => []
    end
  else [].

(** The fragments of the delta of a line can be converted to strings, as
    every string can: the merger cannot throw on the line. *)
Definition convertible_fragments (line : string) : bool :=
  match JSON_parse (slice 6 line) with
  | Some data =>
      match delta_of data with
      | Some delta =>
          convertible_value (get "reasoning_content" delta) &&
          convertible_value (get "content" delta)
      | None => true
      end
  | None => true
  end.

Fixpoint lines_pieces (lines : list string) (started : bool) : list piece :=
  match lines with
  | [] => []
  | l :: ls => (line_pieces l started ++ lines_pieces ls (snd (handle_line l started)))%list
  end.

(** The pieces over the data events of a stream. *)
Fixpoint pump_pieces (chunks : list string) (st : stream_state) : list piece :=
  match chunks with
  | [] => []
  | c :: cs =>
      (lines_pieces (fst (Splitter.feed (buffer st) c)) (reasoningStarted st) ++
       pump_pieces cs (fst (on_data c st fresh)))%list
  end.

End Transcoder.

(** ** A JSON reader and printer for concrete runs

    [JSON.parse] and [JSON.stringify] on a fragment of JSON: no escape of a
    surrogate, no fraction or exponent, integers of at most fifteen digits
    (which JavaScript prints digit for digit), no property name made of
    digits (JavaScript enumerates those first).  Where [parse] gives a value,
    [JSON.parse] gives that value; a text outside the fragment is refused. *)

Module JsonLite.

Definition QUOTE : ascii := "034"%char.
Definition BACKSLASH : ascii := "092"%char.

Definition is_ws (c : ascii) : bool :=
  Ascii.eqb c " "%char || Ascii.eqb c "009"%char || Ascii.eqb c "010"%char ||
  Ascii.eqb c "013"%char.

Fixpoint skip_ws (s : string) : string :=
  match s with
  | String c r => if is_ws c then skip_ws r else s
  | EmptyString => s
  end.

Definition is_digit (c : ascii) : bool :=
  (48 <=? N_of_ascii c)%N && (N_of_ascii c <=? 57)%N.

Fixpoint all_digits (s : string) : bool :=
  match s with
  | EmptyString => true
  | String c r => is_digit c && all_digits r
  end.

(** The character an escape letter stands for. *)
Definition unescape (e : ascii) : option ascii :=
  if Ascii.eqb e QUOTE then Some QUOTE
  else if Ascii.eqb e BACKSLASH then Some BACKSLASH
  else if Ascii.eqb e "/"%char then Some "/"%char
  else if Ascii.eqb e "b"%char then Some "008"%char
  else if Ascii.eqb e "f"%char then Some "012"%char
  else if Ascii.eqb e "n"%char then Some "010"%char
  else if Ascii.eqb e "r"%char then Some "013"%char
  else if Ascii.eqb e "t"%char then Some "009"%char
  else None.

Definition hex_value (c : ascii) : option N :=
  let n := N_of_ascii c in
  if (48 <=? n)%N && (n <=? 57)%N then Some (n - 48)%N
  else if (65 <=? n)%N && (n <=? 70)%N then Some (n - 55)%N
  else if (97 <=? n)%N && (n <=? 102)%N then Some (n - 87)%N
  else None.

(** The UTF-8 bytes of a character of the basic plane given by the four
    hexadecimal digits of its escape; None for a surrogate. *)
Definition unescape_unicode (h1 h2 h3 h4 : ascii) : option string :=
  match hex_value h1, hex_value h2, hex_value h3, hex_value h4 with
  | Some a, Some b, Some c, Some d =>
      let n := (((a * 16 + b) * 16 + c) * 16 + d)%N in
      if (n <? 0x80)%N then Some (String (ascii_of_N n) EmptyString)
      else if (n <? 0x800)%N then
        Some (String (ascii_of_N (0xC0 + n / 64))
                (String (ascii_of_N (0x80 + n mod 64)) EmptyString))
      else if (0xD800 <=? n)%N && (n <=? 0xDFFF)%N then None
      else
        Some (String (ascii_of_N (0xE0 + n / 4096))
                (String (ascii_of_N (0x80 + (n / 64) mod 64))
                   (String (ascii_of_N (0x80 + n mod 64)) EmptyString)))
  | _, _, _, _ => None
  end.

(** A string literal after its opening quote: its value and the text that
    follows the closing quote. *)
Fixpoint parse_string (s : string) : option (string * string) :=
  match s with
  | EmptyString => None
  | String c r =>
      if Ascii.eqb c QUOTE then Some (EmptyString, r)
      else if Ascii.eqb c BACKSLASH then
        match r with
        | String "u"%char (String h1 (String h2 (String h3 (String h4 r')))) =>
            match unescape_unicode h1 h2 h3 h4, parse_string r' with
            | Some bytes, Some (t, rest) => Some (bytes ++ t, rest)
            | _, _ => None
            end
        | String e r' =>
            match unescape e, parse_string r' with
            | Some ch, Some (t, rest) => Some (String ch t, rest)
            | _, _ => None
            end
        | EmptyString => None
        end
      else if (N_of_ascii c <? 32)%N then None
      else
        match parse_string r with
        | Some (t, rest) => Some (String c t, rest)
        | None => None
        end
  end.

(** The digits at the head of a text, and what follows them. *)
Fixpoint span_digits (s : string) : string * string :=
  match s with
  | String c r =>
      if is_digit c then let '(d, rest) := span_digits r in (String c d, rest)
      else (EmptyString, s)
  | EmptyString => (EmptyString, s)
  end.

Definition starts_fraction_or_exponent (s : string) : bool :=
  match s with
  | String c _ => Ascii.eqb c "."%char || Ascii.eqb c "e"%char || Ascii.eqb c "E"%char
  | EmptyString => false
  end.

(** An integer literal: the text JavaScript prints for the number. *)
Definition parse_number (s : string) : option (json * string) :=
  let '(negative, body) :=
    match s with
    | String "-"%char r => (true, r)
    | _ => (false, s)
    end in
  let '(digits, rest) := span_digits body in
  match digits with
  | EmptyString => None
  | String d more =>
      if Ascii.eqb d "0"%char && nonempty more then None
      else if starts_fraction_or_exponent rest then None
      else if (15 <? String.length digits)%nat then None
      else if String.eqb digits "0" then Some (JNum "0", rest)
      else Some (JNum (if negative then String "-"%char digits else digits), rest)
  end.

Definition parse_word (word : string) (v : json) (s : string) : option (json * string) :=
  if prefix word s then Some (v, slice (String.length word) s) else None.

Fixpoint parse_value (fuel : nat) (s : string) : option (json * string) :=
  match fuel with
  | O => None
  | S n =>
      match skip_ws s with
      | EmptyString => None
      | String c r as t =>
          if Ascii.eqb c "{"%char then
            match skip_ws r with
            | String "}"%char r' => Some (JObj [], r')
            | _ => parse_members n [] r
            end
          else if Ascii.eqb c "["%char then
            match skip_ws r with
            | String "]"%char r' => Some (JArr [], r')
            | _ => parse_items n [] r
            end
          else if Ascii.eqb c QUOTE then
            match parse_string r with
            | Some (v, rest) => Some (JStr v, rest)
            | None => None
            end
          else if Ascii.eqb c "n"%char then parse_word "null" JNull t
          else if Ascii.eqb c "t"%char then parse_word "true" (JBool true) t
          else if Ascii.eqb c "f"%char then parse_word "false" (JBool false) t
          else parse_number t
      end
  end
with parse_items (fuel : nat) (acc : list json) (s : string) : option (json * string) :=
  match fuel with
  | O => None
  | S n =>
      match parse_value n s with
      | Some (v, rest) =>
          match skip_ws rest with
          | String ","%char r => parse_items n (acc ++ [v])%list r
          | String "]"%char r => Some (JArr (acc ++ [v])%list, r)
          | _ => None
          end
      | None => None
      end
  end
with parse_members (fuel : nat) (acc : list (string * json)) (s : string) :
  option (json * string) :=
  match fuel with
  | O => None
  | S n =>
      match skip_ws s with
      | String c r =>
          if Ascii.eqb c QUOTE then
            match parse_string r with
            | Some (k, rest) =>
                if nonempty k && all_digits k then None
                else
                  match skip_ws rest with
                  | String ":"%char r' =>
                      match parse_value n r' with
                      | Some (v, rest') =>
                          match skip_ws rest' with
                          | String ","%char r'' => parse_members n (obj_set k v acc) r''
                          | String "}"%char r'' => Some (JObj (obj_set k v acc), r'')
                          | _ => None
                          end
                      | None => None
                      end
                  | _ => None
                  end
            | None => None
            end
          else None
      | EmptyString => None
      end
  end.

(** [JSON.parse(text)] on the fragment. *)
Definition parse (text : string) : option json :=
  match parse_value (2 * String.length text + 2) text with
  | Some (v, rest) =>
      match skip_ws rest with
      | EmptyString => Some v
      | String _ _ => None
      end
  | None => None
  end.

Definition hex_digit (n : N) : ascii :=
  ascii_of_N (if (n <? 10)%N then 48 + n else 87 + n).

Definition escape (c : ascii) : string :=
  if Ascii.eqb c QUOTE then String BACKSLASH (String QUOTE EmptyString)
  else if Ascii.eqb c BACKSLASH then String BACKSLASH (String BACKSLASH EmptyString)
  else if Ascii.eqb c "008"%char then String BACKSLASH "b"
  else if Ascii.eqb c "012"%char then String BACKSLASH "f"
  else if Ascii.eqb c "010"%char then String BACKSLASH "n"
  else if Ascii.eqb c "013"%char then String BACKSLASH "r"
  else if Ascii.eqb c "009"%char then String BACKSLASH "t"
  else if (N_of_ascii c <? 32)%N then
    String BACKSLASH
      ("u00" ++ String (hex_digit (N_of_ascii c / 16)) (String (hex_digit (N_of_ascii c mod 16)) EmptyString))
  else String c EmptyString.

Fixpoint escape_all (s : string) : string :=
  match s with
  | EmptyString => EmptyString
  | String c r => escape c ++ escape_all r
  end.

Definition quote (s : string) : string :=
  String QUOTE (escape_all s ++ String QUOTE EmptyString).

(** [JSON.stringify(v)] *)
Fixpoint stringify (v : json) : string :=
  match v with
  | JNull => "null"
  | JBool true => "true"
  | JBool false => "false"
  | JNum t => t
  | JStr s => quote s
  | JArr items =>
      "[" ++
      (fix go (l : list json) : string :=
         match l with
         | [] => EmptyString
         | x :: r =>
             stringify x ++ (match r with [] => EmptyString | _ :: _ => "," ++ go r end)
         end) items ++ "]"
  | JObj props =>
      "{" ++
      (fix go (l : list (string * json)) : string :=
         match l with
         | [] => EmptyString
         | (k, x) :: r =>
             quote k ++ ":" ++ stringify x ++
             (match r with [] => EmptyString | _ :: _ => "," ++ go r end)
         end) props ++ "}"
  end.

End JsonLite.

(** The reader and printer above as the runtime's [JSON]. *)
Definition lite : JSON :=
  {| JSON_parse := JsonLite.parse; JSON_stringify := JsonLite.stringify |}.

(** The handlers with it, on a stream that ends normally. *)
Definition run_stream (show : bool) (chunks : list string) : stream_state * response :=
  stream (js := lite) show chunks.

(** ** The streams of the scenarios *)

Module Scenario.

(** An event as the backend sends it: the frame and a blank line. *)
Definition event (payload : string) : string :=
  DATA_PREFIX ++ payload ++ NL ++ NL.

Definition reasoning_frame (text : string) : string :=
  event (dq "{'choices':[{'delta':{'reasoning_content':'" ++ text ++ dq "'}}]}").

Definition content_frame (text : string) : string :=
  event (dq "{'choices':[{'delta':{'content':'" ++ text ++ dq "'}}]}").

(** Two reasoning fragments, one content fragment, the sentinel: one chunk
    each. *)
Definition frames : list string :=
  [reasoning_frame "Let"; reasoning_frame " me think"; content_frame "42"; event DONE].

(** The bytes of e-acute in UTF-8. *)
Definition E_ACUTE_1 : string := String "195"%char EmptyString.
Definition E_ACUTE_2 : string := String "169"%char EmptyString.

(** A content frame whose text ends in e-acute, cut between the two bytes
    of that character. *)
Definition cut_head : string :=
  DATA_PREFIX ++ dq "{'choices':[{'delta':{'content':'caf" ++ E_ACUTE_1.
Definition cut_tail : string :=
  E_ACUTE_2 ++ dq "'}}]}" ++ NL ++ NL.

(** A frame that carries the sentinel text inside its fragments. *)
Definition quoting_frame : string :=
  DATA_PREFIX ++
  dq "{'choices':[{'delta':{'reasoning_content':'plan','content':'send [DONE] last'}}]}".

(** A delta that carries both fragments. *)
Definition both_frame : string :=
  DATA_PREFIX ++ dq "{'choices':[{'delta':{'reasoning_content':'a','content':'b'}}]}".

(** A role announcement: a delta with neither fragment. *)
Definition role_frame : string :=
  DATA_PREFIX ++ dq "{'choices':[{'delta':{'role':'assistant'}}]}".

(** A delta with a reasoning fragment whose content is an object with a
    property toString: the content cannot be converted to a string. *)
Definition throwing_frame : string :=
  DATA_PREFIX ++
  dq "{'choices':[{'delta':{'reasoning_content':'r','content':{'toString':1}}}]}".

(** A frame that does not parse and ends in the byte 0xFF, which occurs in
    no UTF-8 text. *)
Definition ILL_FORMED : string := String "255"%char EmptyString.
Definition ill_formed_frame : string := "data: {oops " ++ ILL_FORMED.

End Scenario.

(** ** The endpoints around the stream (lines 24-185 and 258-307) *)

From Stdlib Require Import DecimalString.

Module Proxy.

(** The text JavaScript prints for a non-negative integer below 10^21. *)
Definition decimal (n : N) : string := NilEmpty.string_of_uint (N.to_uint n).

(** An object literal whose property values may be [undefined], as
    [res.json] prints it: such properties are left out. *)
Fixpoint obj (fields : list (string * value)) : list (string * json) :=
  match fields with
  | [] => []
  | (k, Some v) :: r => (k, v) :: obj r
  | (_, None) :: r => obj r
  end.

(** Lines 31-39. *)
Definition MODEL_MAPPING : list (string * string) :=
  [ ("gpt-3.5-turbo", "nvidia/llama-3.1-nemotron-ultra-253b-v1");
    ("gpt-4", "deepseek-ai/deepseek-v3.1-terminus");
    ("gpt-4-turbo", "deepseek-ai/deepseek-v3.2");
    ("gpt-4o", "deepseek-ai/deepseek-v3.1");
    ("claude-3-opus", "openai/gpt-oss-120b");
    ("claude-3-sonnet", "openai/gpt-oss-20b");
    ("gemini-pro", "moonshotai/kimi-k2.5") ].

(** The properties every object literal inherits from [Object.prototype]. *)
Definition OBJECT_PROTOTYPE : list string :=
  [ "constructor"; "__defineGetter__"; "__defineSetter__"; "hasOwnProperty";
    "__lookupGetter__"; "__lookupSetter__"; "isPrototypeOf"; "propertyIsEnumerable";
    "toString"; "valueOf"; "__proto__"; "toLocaleString" ].

(** What [nimModel] can hold: a value of the request or of the table, or
    a member inherited from [Object.prototype] (a function, or the prototype
    itself), which is truthy and no string. *)
Inductive model_value :=
| Plain (v : json)
| Inherited (member : string).

Fixpoint own (key : string) (table : list (string * string)) : option string :=
  match table with
  | [] => None
  | (k, target) :: r => if String.eqb k key then Some target else own key r
  end.

(** [MODEL_MAPPING[model]]: the key is the model as a string; an own
    property first, then the prototype. *)
Definition mapping_get (model : json) : option model_value :=
  let key := toText model in
  match own key MODEL_MAPPING with
  | Some target => Some (Plain (JStr target))
  | None =>
      if existsb (String.eqb key) OBJECT_PROTOTYPE then Some (Inherited key) else None
  end.

(** An upstream call: the body posted to the chat completions endpoint and
    the Authorization header. *)
Record nim_request := {
  rq_model : model_value;
  rq_messages : json;
  rq_temperature : json;
  rq_max_tokens : json;
  rq_stream : json;
  rq_extra_body : option json
}.

Inductive call :=
| Probe (authorization : string) (body : json)
| Completion (authorization : string) (nimRequest : nim_request).

(** What a rejected [axios.post] or a thrown TypeError carries for the
    catch block of lines 294-306: [error.message], and [error.response]
    with its status and data when there is one. *)
Record thrown := {
  message : string;
  response_of : option (N * value)
}.

(** The places where the handler can throw a TypeError. *)
Inductive site :=
| DestructureBody        (* line 98, the body is null or undefined *)
| MappingKey             (* line 112, the model cannot be converted to a key *)
| ToLowerCase            (* line 138, the model is no string *)
| ReadChoices            (* line 267, no data, or its choices are no array *)
| MapChoice.             (* lines 268-281, inside the callback of map *)

(** What the main upstream call gives back. *)
Inductive posted (data : Type) :=
| Responded (status : N) (body : data)
| Rejected (error : thrown).
Arguments Responded {data}.
Arguments Rejected {data}.

(** An upstream body read as a stream: its chunks, and whether it ended
    normally or with an error. *)
Record upstream_stream := {
  chunks_of : list string;
  ends_normally : bool
}.

(** What the caller gets. *)
Inductive reply :=
| JsonReply (status : N) (body : json)
| StreamReply (res : response).

Section Endpoints.

Context {js : JSON}.

(** The constants of lines 25 and 28. *)
Variable SHOW_REASONING : bool.
Variable ENABLE_THINKING_MODE : bool.

(** [process.env.NIM_API_KEY], None when it is not set. *)
Variable NIM_API_KEY : option string.

(** [String.prototype.toLowerCase]. *)
Variable toLowerCase : string -> string.

(** The message of the TypeError the engine throws at a place. *)
Variable TypeError_message : site -> string.

(** [Date.now()] at its k-th call within a request. *)
Variable Date_now : nat -> N.

(** The backend: the status of the trial request (None when the request
    fails without a response), and the outcome of the main request read as
    JSON or as a stream. *)
Variable probe_status : json -> option N.
Variable post_json : nim_request -> posted json.
Variable post_stream : nim_request -> posted upstream_stream.

Definition key_configured : bool :=
  match NIM_API_KEY with
  | Some k => nonempty k
  | None => false
  end.

Definition authorization : string :=
  "Bearer " ++ match NIM_API_KEY with Some k => k | None => "undefined" end.

Definition model_truthy (m : option model_value) : bool :=
  match m with
  | Some (Plain v) => truthy v
  | Some (Inherited _) => true
  | None => false
  end.

(** The bodies of all error replies. *)
Definition error_body (msg : json) (code : N) (details : value) : json :=
  JObj [("error",
         JObj (obj [("message", Some msg);
                    ("type", Some (JStr "invalid_request_error"));
                    ("code", Some (JNum (decimal code)));
                    ("details", details)]))].

(** Lines 294-306, the catch block. *)
Definition caught (error : thrown) : reply :=
  let status :=
    match response_of error with
    | Some (s, _) => if (s =? 0)%N then 500%N else s
    | None => 500%N
    end in
  JsonReply status
    (error_body
       (JStr (if nonempty (message error) then message error else "Internal server error"))
       status
       (match response_of error with Some (_, d) => d | None => None end)).

Definition type_error (where_ : site) : thrown :=
  {| message := TypeError_message where_; response_of := None |}.

(** Lines 139-145, on the lower-cased model name. *)
Definition fallback (modelLower : string) : string :=
  if includes "gpt-4" modelLower || includes "claude-opus" modelLower ||
     includes "405b" modelLower
  then "meta/llama-3.1-405b-instruct"
  else if includes "claude" modelLower || includes "gemini" modelLower ||
          includes "70b" modelLower
  then "meta/llama-3.1-70b-instruct"
  else "meta/llama-3.1-8b-instruct".

(** The body of the trial request, lines 117-121. *)
Definition probe_body (model : json) : json :=
  JObj [("model", model);
        ("messages", JArr [JObj [("role", JStr "user"); ("content", JStr "test")]]);
        ("max_tokens", JNum "1")].

(** The trial request is accepted when it resolves (a status below 500)
    with a status from 200 to 299. *)
Definition probe_accepts (model : json) : bool :=
  match probe_status (probe_body model) with
  | Some status => (status <? 500)%N && (200 <=? status)%N && (status <? 300)%N
  | None => false
  end.

(** Lines 112-148: the upstream calls made, and [nimModel] or the error
    thrown. *)
Definition select_model (model : json) : list call * (model_value + thrown) :=
  if negb (convertible model) then ([], inr (type_error MappingKey)) else
  let nimModel := mapping_get model in
  if model_truthy nimModel then
    ([], match nimModel with Some m => inl m | None => inl (Plain model) end)
  else
    let calls := [Probe authorization (probe_body model)] in
    if probe_accepts model && truthy model then (calls, inl (Plain model))
    else
      match model with
      | JStr name => (calls, inl (Plain (JStr (fallback (toLowerCase name)))))
      | _ => (calls, inr (type_error ToLowerCase))
      end.

(** [x || d] *)
Definition or_else (x : value) (d : json) : json :=
  match x with
  | Some v => if truthy v then v else d
  | None => d
  end.

(** Lines 151-161. *)
Definition nimRequest (nimModel : model_value) (messages : json)
  (temperature max_tokens stream : value) : nim_request :=
  {| rq_model := nimModel;
     rq_messages := messages;
     rq_temperature := match temperature with Some t => t | None => JNum "0.6" end;
     rq_max_tokens := or_else max_tokens (JNum "9024");
     rq_stream := or_else stream (JBool false);
     rq_extra_body :=
       if ENABLE_THINKING_MODE
       then Some (JObj [("chat_template_kwargs", JObj [("thinking", JBool true)])])
       else None |}.

(** Lines 267-282, the callback of [choices.map]: the choice of the
    reply, or None when it throws. *)
Definition transform_choice (choice : json) : option json :=
  match choice with
  | JNull => None
  | _ =>
      let msg := get "message" choice in
      let content := or_else (chain msg (get "content")) (JStr EmptyString) in
      let reasoning := chain msg (get "reasoning_content") in
      let wrap := SHOW_REASONING && truthy_value reasoning in
      let fullContent :=
        if wrap then
          JStr (THINK_OPEN ++ toText_value reasoning ++ NL ++ THINK_CLOSE ++ toText content)
        else content in
      match msg with
      | None => None
      | Some JNull => None
      | Some m =>
          if wrap &&
             negb (match reasoning with Some r => convertible r | None => true end &&
                   convertible content)
          then None
          else
            Some (JObj (obj [("index", get "index" choice);
                             ("message",
                              Some (JObj (obj [("role", get "role" m);
                                               ("content", Some fullContent)])));
                             ("finish_reason", get "finish_reason" choice)]))
      end
  end.

(** [choices.map(...)]: every choice in order, or None when one throws. *)
Fixpoint transform_choices (choices : list json) : option (list json) :=
  match choices with
  | [] => Some []
  | c :: r =>
      match transform_choice c, transform_choices r with
      | Some c', Some r' => Some (c' :: r')
      | _, _ => None
      end
  end.

Definition no_usage : json :=
  JObj [("prompt_tokens", JNum "0"); ("completion_tokens", JNum "0");
        ("total_tokens", JNum "0")].

(** Lines 262-288: [openaiResponse], or the place where building it
    throws. *)
Definition openaiResponse (model data : json) : json + site :=
  match data with
  | JNull => inr ReadChoices
  | _ =>
      match get "choices" data with
      | Some (JArr choices) =>
          match transform_choices choices with
          | Some choices' =>
              inl (JObj [("id", JStr ("chatcmpl-" ++ decimal (Date_now 0)));
                         ("object", JStr "chat.completion");
                         ("created", JNum (decimal (Date_now 1 / 1000)));
                         ("model", model);
                         ("choices", JArr choices');
                         ("usage", or_else (get "usage" data) no_usage)])
          | None => inr MapChoice
          end
      | _ => inr ReadChoices
      end
  end.

(** Lines 176-185: the reply to an upstream status of 400 or more. *)
Definition upstream_error (status : N) (data : value) : reply :=
  JsonReply status
    (error_body
       (or_else (chain (chain data (get "error")) (get "message"))
          (JStr "NVIDIA API request failed"))
       status None).

(** Lines 187-257: the response after the events of the upstream body. *)
Definition streamed (body : upstream_stream) : response :=
  let '(st, res) := pump SHOW_REASONING (chunks_of body) initial fresh in
  snd (if ends_normally body then on_end st res else on_error st res).

(** Lines 81-307, the handler of POST /v1/chat/completions: the upstream
    calls it makes, in order, and its reply. *)
Definition chat_completions (body : value) : list call * reply :=
  if negb key_configured then
    ([], JsonReply 500 (error_body (JStr "NVIDIA API key not configured") 500 None))
  else
    match body with
    | None => ([], caught (type_error DestructureBody))
    | Some JNull => ([], caught (type_error DestructureBody))
    | Some b =>
        match get "model" b, get "messages" b with
        | Some model, Some messages =>
            if negb (truthy model) || negb (truthy messages) then
              ([], JsonReply 400
                     (error_body
                        (JStr "Missing required fields: model and messages are required")
                        400 None))
            else
              match select_model model with
              | (calls, inr error) => (calls, caught error)
              | (calls, inl nimModel) =>
                  let request :=
                    nimRequest nimModel messages (get "temperature" b)
                      (get "max_tokens" b) (get "stream" b) in
                  let calls' := (calls ++ [Completion authorization request])%list in
                  if truthy_value (get "stream" b) then
                    match post_stream request with
                    | Rejected error => (calls', caught error)
                    | Responded status upstream =>
                        if (400 <=? status)%N then (calls', upstream_error status None)
                        else (calls', StreamReply (streamed upstream))
                    end
                  else
                    match post_json request with
                    | Rejected error => (calls', caught error)
                    | Responded status data =>
                        if (400 <=? status)%N then
                          (calls', upstream_error status (Some data))
                        else
                          match openaiResponse model data with
                          | inl response => (calls', JsonReply 200 response)
                          | inr where_ => (calls', caught (type_error where_))
                          end
                    end
              end
        | _, _ =>
            ([], JsonReply 400
                   (error_body
                      (JStr "Missing required fields: model and messages are required")
                      400 None))
        end
    end.

(** Lines 66-78, the handler of GET /v1/models. *)
Definition list_models : json :=
  JObj [("object", JStr "list");
        ("data",
         JArr (map (fun '(k, entry) =>
                      JObj [("id", JStr (fst entry));
                            ("object", JStr "model");
                            ("created", JNum (decimal (Date_now k)));
                            ("owned_by", JStr "nvidia-nim-proxy")])
                 (combine (seq 0 (List.length MODEL_MAPPING)) MODEL_MAPPING)))].

End Endpoints.

(** Lower case of the ASCII letters, which is [toLowerCase] on ASCII text. *)
Definition ascii_lower (c : ascii) : ascii :=
  let n := N_of_ascii c in
  if (65 <=? n)%N && (n <=? 90)%N then ascii_of_N (n + 32) else c.

Fixpoint lower (s : string) : string :=
  match s with
  | EmptyString => EmptyString
  | String c r => String (ascii_lower c) (lower r)
  end.

End Proxy.

(** ** A backend and requests for concrete runs of the endpoint *)

Module ProxyScenario.
Import Proxy.

Definition engine_message (where_ : site) : string :=
  match where_ with
  | DestructureBody => "Cannot destructure property 'model' of 'req.body' as it is undefined."
  | MappingKey => "Cannot convert object to primitive value"
  | ToLowerCase => "model.toLowerCase is not a function"
  | ReadChoices => "Cannot read properties of undefined (reading 'map')"
  | MapChoice => "Cannot read properties of undefined (reading 'role')"
  end.

Definition clock (k : nat) : N := 1700000000123%N.

(** The backend accepts one name outside the table and refuses the others. *)
Definition trial (body : json) : option N :=
  match get "model" body with
  | Some (JStr "qwen/qwen3-235b") => Some 200%N
  | _ => Some 404%N
  end.

Definition answer : json :=
  JObj [("choices",
         JArr [JObj [("index", JNum "0");
                     ("message",
                      JObj [("role", JStr "assistant");
                            ("content", JStr "42");
                            ("reasoning_content", JStr "Let me think")]);
                     ("finish_reason", JStr "stop")]])].

Definition backend_json (rq : nim_request) : posted json := Responded 200 answer.

Definition backend_stream (rq : nim_request) : posted upstream_stream :=
  Responded 200 {| chunks_of := Scenario.frames; ends_normally := true |}.

(** The handler with this backend and the key k. *)
Definition serve (show : bool) (body : value) : list call * reply :=
  chat_completions (js := lite) show false (Some "k") lower engine_message clock
    trial backend_json backend_stream body.

Definition ask (model : string) : json :=
  JObj [("model", JStr model);
        ("messages", JArr [JObj [("role", JStr "user"); ("content", JStr "6 x 7?")]])].

End ProxyScenario.

(** ** Whole runs of the merger and plain text chunks *)

(** The deltas of a stream go through [merge] one after the other; the
    caller reads the text of the combined contents one after the other.  A
    delta on which the merger throws adds nothing: its frame goes out as it
    came. *)
Fixpoint merge_all (deltas : list (value * value)) (started : bool) : string * bool :=
  match deltas with
  | [] => (EmptyString, started)
  | (reasoning, content) :: rest =>
      let '(combinedContent, started1) := merge reasoning content started in
      let '(text', started2) := merge_all rest started1 in
      (match combinedContent with
       | Some c => toText c
       | None => EmptyString
       end ++ text', started2)
  end.

(** A delta with only a reasoning fragment, and one with only a content
    fragment. *)
Definition reasoning_delta (text : string) : value * value := (Some (JStr text), None).
Definition content_delta (text : string) : value * value := (None, Some (JStr text)).

(** Every byte is below 128. *)
Fixpoint is_ascii (s : string) : bool :=
  match s with
  | EmptyString => true
  | String c r => (N_of_ascii c <? 128)%N && is_ascii r
  end.

(** * Properties *)

(** ** Strings and the line split *)

Lemma append_empty_r (s : string) : s ++ EmptyString = s.
Proof. induction s as [|c r IH]; simpl; [reflexivity | now rewrite IH]. Qed.

Lemma append_assoc (a b c : string) : (a ++ b) ++ c = a ++ (b ++ c).
Proof. induction a as [|x r IH]; simpl; [reflexivity | now rewrite IH]. Qed.

Lemma has_lf_append (a b : string) : has_lf (a ++ b) = has_lf a || has_lf b.
Proof.
  induction a as [|c r IH]; simpl; [reflexivity|].
  rewrite IH. now rewrite orb_assoc.
Qed.

Lemma split_nl_not_nil (s : string) : split_nl s <> [].
Proof.
  induction s as [|c r IH]; simpl; [discriminate|].
  destruct (Ascii.eqb c LF); [discriminate|].
  destruct (split_nl r); discriminate.
Qed.

(** A text without line feed is a single segment. *)
Lemma split_nl_no_lf (s : string) : has_lf s = false -> split_nl s = [s].
Proof.
  induction s as [|c r IH]; simpl; [reflexivity|].
  intros H. apply orb_false_iff in H as [Hc Hr].
  rewrite Hc, (IH Hr). reflexivity.
Qed.

(** No segment of a split holds a line feed. *)
Lemma split_nl_segments (s : string) : Forall (fun l => has_lf l = false) (split_nl s).
Proof.
  induction s as [|c r IH]; simpl.
  - repeat constructor.
  - destruct (Ascii.eqb c LF) eqn:E.
    + constructor; [reflexivity | exact IH].
    + destruct (split_nl r) as [|h t].
      * repeat constructor. simpl. now rewrite E.
      * inversion IH; subst.
        constructor; [simpl; rewrite E; assumption | assumption].
Qed.

Lemma last_no_lf (ls : list string) :
  Forall (fun l => has_lf l = false) ls -> has_lf (last ls EmptyString) = false.
Proof.
  induction 1 as [|x r Hx Hr IH]; [reflexivity|].
  destruct r; [exact Hx | exact IH].
Qed.

(** Splitting a concatenation: the complete lines of the first part, then
    the split of its last segment followed by the second part. *)
Lemma split_nl_append (a b : string) :
  split_nl (a ++ b) =
  (removelast (split_nl a) ++ split_nl (last (split_nl a) EmptyString ++ b))%list.
Proof.
  induction a as [|c r IH]; [reflexivity|].
  change (String c r ++ b) with (String c (r ++ b)).
  cbn [split_nl]. destruct (Ascii.eqb c LF) eqn:E.
  - pose proof (split_nl_not_nil r) as Hr.
    destruct (split_nl r) as [|h t] eqn:Er; [contradiction|].
    rewrite IH. reflexivity.
  - pose proof (split_nl_not_nil r) as Hr.
    destruct (split_nl r) as [|h t] eqn:Er; [contradiction|].
    rewrite IH. destruct t as [|h' t'].
    + cbn [removelast last app].
      change (String c h ++ b) with (String c (h ++ b)).
      cbn [split_nl]. rewrite E.
      pose proof (split_nl_not_nil (h ++ b)) as Hh.
      destruct (split_nl (h ++ b)); [contradiction | reflexivity].
    + reflexivity.
Qed.

Lemma removelast_app_not_nil {A} (l l' : list A) :
  l' <> [] -> removelast (l ++ l') = (l ++ removelast l')%list.
Proof. intros H. now apply removelast_app. Qed.

Lemma last_app_not_nil {A} (l l' : list A) (d : A) :
  l' <> [] -> last (l ++ l') d = last l' d.
Proof.
  intros H. induction l as [|x r IH]; [reflexivity|].
  cbn [app]. destruct (r ++ l')%list eqn:E.
  - destruct r; [contradiction | discriminate].
  - cbn [last]. exact IH.
Qed.

(** ** The frame splitter on decoded text *)

Module SplitterFacts.
Import Splitter.

(** The carry-over never holds a line feed. *)
Lemma feed_carry_no_lf (buffer chunk : string) :
  has_lf (snd (feed buffer chunk)) = false.
Proof. apply last_no_lf, split_nl_segments. Qed.

(** Two texts fed one after the other give the lines and the carry-over of
    their concatenation fed at once. *)
Lemma pop_split_append (buffer t1 t2 : string) :
  let '(l1, b1) := pop (split_nl (buffer ++ t1)) in
  let '(l2, b2) := pop (split_nl (b1 ++ t2)) in
  pop (split_nl (buffer ++ t1 ++ t2)) = ((l1 ++ l2)%list, b2).
Proof.
  unfold pop. rewrite <- append_assoc, split_nl_append.
  rewrite removelast_app_not_nil, last_app_not_nil by apply split_nl_not_nil.
  reflexivity.
Qed.

End SplitterFacts.

(** ** The decoder *)

Module Utf8Facts.
Import Utf8.

Lemma run_emitted (bytes : string) : forall d,
  run d bytes = emitted d bytes ++ flush (after d bytes).
Proof.
  induction bytes as [|b r IH]; intros d; cbn [run emitted after]; [reflexivity|].
  destruct (step d b) as [out d'] eqn:E. cbn [fst snd].
  now rewrite IH, append_assoc.
Qed.

Lemma emitted_append (a b : string) : forall d,
  emitted d (a ++ b) = emitted d a ++ emitted (after d a) b.
Proof.
  induction a as [|x r IH]; intros d; [reflexivity|].
  change (String x r ++ b) with (String x (r ++ b)).
  cbn [emitted after]. now rewrite IH, append_assoc.
Qed.

Lemma after_append (a b : string) : forall d,
  after d (a ++ b) = after (after d a) b.
Proof.
  induction a as [|x r IH]; intros d; [reflexivity|].
  change (String x r ++ b) with (String x (r ++ b)).
  cbn [after]. apply IH.
Qed.

Lemma lead_settled (b : ascii) : needed (snd (lead b)) = 0 -> snd (lead b) = start.
Proof.
  unfold lead.
  repeat match goal with
         | |- context [if ?c then _ else _] => destruct c
         end; cbn; congruence.
Qed.

(** A decoder that expects no continuation byte is the initial one. *)
Lemma step_settled (d : decoder) (b : ascii) :
  needed (snd (step d b)) = 0 -> snd (step d b) = start.
Proof.
  unfold step. destruct (needed d) as [|k]; [apply lead_settled|].
  destruct (between (lower d) (N_of_ascii b) (upper d)).
  - destruct k; cbn; congruence.
  - pose proof (lead_settled b) as H. destruct (lead b); exact H.
Qed.

Lemma after_settled (bytes : string) : forall d,
  d = start \/ needed d <> 0 -> needed (after d bytes) = 0 -> after d bytes = start.
Proof.
  induction bytes as [|b r IH]; intros d Hd H; cbn [after] in *.
  - destruct Hd; [assumption | contradiction].
  - apply IH; [|assumption].
    destruct (needed (snd (step d b))) eqn:E; [left; now apply step_settled | right; discriminate].
Qed.

(** Decoding distributes over a cut on a character boundary. *)
Lemma toString_append (a b : string) :
  ends_on_boundary a = true -> toString (a ++ b) = toString a ++ toString b.
Proof.
  unfold ends_on_boundary, toString. intros H. apply Nat.eqb_eq in H.
  pose proof (after_settled a start (or_introl eq_refl) H) as Hs.
  rewrite !run_emitted, emitted_append, after_append, Hs.
  cbn [flush needed start]. now rewrite append_empty_r, append_assoc.
Qed.

Lemma lead_no_lf (b : ascii) :
  Ascii.eqb b LF = false ->
  has_lf (fst (lead b)) = false /\ has_lf (pending (snd (lead b))) = false.
Proof.
  intros Hb. unfold lead.
  repeat match goal with
         | |- context [if ?c then _ else _] => destruct c
         end; cbn; rewrite ?Hb; auto.
Qed.

Lemma step_no_lf (d : decoder) (b : ascii) :
  has_lf (pending d) = false -> Ascii.eqb b LF = false ->
  has_lf (fst (step d b)) = false /\ has_lf (pending (snd (step d b))) = false.
Proof.
  intros Hd Hb. unfold step. destruct (needed d) as [|k]; [now apply lead_no_lf|].
  assert (Hseq : has_lf (pending d ++ String b EmptyString) = false).
  { rewrite has_lf_append, Hd. cbn. now rewrite Hb. }
  destruct (between (lower d) (N_of_ascii b) (upper d)).
  - destruct k; cbn; auto.
  - destruct (lead_no_lf b Hb) as [H1 H2]. destruct (lead b); cbn in *. auto.
Qed.

(** Decoding adds no line feed. *)
Lemma run_no_lf (bytes : string) : forall d,
  has_lf (pending d) = false -> has_lf bytes = false -> has_lf (run d bytes) = false.
Proof.
  induction bytes as [|b r IH]; intros d Hd Hb; cbn [run].
  - unfold flush. now destruct (needed d).
  - cbn in Hb. apply orb_false_iff in Hb as [Hb Hr].
    destruct (step_no_lf d b Hd Hb) as [H1 H2].
    destruct (step d b) as [out d']; cbn [fst snd] in *.
    rewrite has_lf_append, H1. cbn. now apply IH.
Qed.

Lemma toString_no_lf (chunk : string) :
  has_lf chunk = false -> has_lf (toString chunk) = false.
Proof. now apply run_no_lf. Qed.

End Utf8Facts.

(** ** Chunks cut on character boundaries *)

Module ChunkingFacts.
Import Splitter SplitterFacts Utf8Facts.

Lemma whole_on_boundary (chunks : list string) :
  Forall (fun c => Utf8.ends_on_boundary c = true) chunks ->
  Utf8.ends_on_boundary (whole chunks) = true.
Proof.
  induction 1 as [|c cs Hc _ IH]; [reflexivity|].
  unfold Utf8.ends_on_boundary in *. change (whole (c :: cs)) with (c ++ whole cs).
  apply Nat.eqb_eq in Hc. apply Nat.eqb_eq in IH. apply Nat.eqb_eq.
  rewrite after_append, (after_settled c Utf8.start (or_introl eq_refl) Hc).
  exact IH.
Qed.

(** When no chunk ends inside a character, feeding the chunks one by one
    hands on the lines of their bytes fed as one chunk, with the same
    carry-over. *)
Lemma feed_all_on_boundaries (chunks : list string) : forall buffer,
  has_lf buffer = false ->
  Forall (fun c => Utf8.ends_on_boundary c = true) chunks ->
  feed_all buffer chunks = feed buffer (whole chunks).
Proof.
  induction chunks as [|c cs IH]; intros buffer Hb Hcs.
  - cbn. unfold feed, pop. cbn. rewrite append_empty_r, (split_nl_no_lf _ Hb).
    reflexivity.
  - inversion Hcs as [|? ? Hc Hcs']; subst.
    change (whole (c :: cs)) with (c ++ whole cs). cbn [feed_all].
    pose proof (feed_carry_no_lf buffer c) as Hcarry.
    pose proof (pop_split_append buffer (Utf8.toString c) (Utf8.toString (whole cs))) as P.
    unfold feed in *.
    destruct (pop (split_nl (buffer ++ Utf8.toString c))) as [l1 b1].
    cbn [snd] in Hcarry. rewrite (IH b1 Hcarry Hcs'). unfold feed.
    destruct (pop (split_nl (b1 ++ Utf8.toString (whole cs)))) as [l2 b2].
    rewrite (toString_append c (whole cs) Hc). symmetry. exact P.
Qed.

End ChunkingFacts.

(** ** Objects *)

Module JsonFacts.

Lemma obj_get_set_same (k : string) (x : json) (props : list (string * json)) :
  obj_get k (obj_set k x props) = Some x.
Proof.
  induction props as [|[k' v] r IH]; cbn.
  - now rewrite String.eqb_refl.
  - destruct (String.eqb k' k) eqn:E; cbn; now rewrite E.
Qed.

Lemma obj_get_set_other (k k' : string) (x : json) (props : list (string * json)) :
  String.eqb k k' = false -> obj_get k' (obj_set k x props) = obj_get k' props.
Proof.
  intros Hk. induction props as [|[k0 v] r IH]; cbn.
  - now rewrite Hk.
  - destruct (String.eqb k0 k) eqn:E; cbn.
    + apply String.eqb_eq in E. subst k0. now rewrite Hk.
    + now rewrite IH.
Qed.

Lemma obj_get_delete_same (k : string) (props : list (string * json)) :
  obj_get k (obj_delete k props) = None.
Proof.
  induction props as [|[k' v] r IH]; cbn; [reflexivity|].
  destruct (String.eqb k' k) eqn:E; cbn; [assumption | now rewrite E].
Qed.

Lemma obj_get_delete_other (k k' : string) (props : list (string * json)) :
  String.eqb k k' = false -> obj_get k' (obj_delete k props) = obj_get k' props.
Proof.
  intros Hk. induction props as [|[k0 v] r IH]; cbn; [reflexivity|].
  destruct (String.eqb k0 k) eqn:E; cbn.
  - apply String.eqb_eq in E. subst k0. now rewrite Hk.
  - destruct (String.eqb k0 k'); [reflexivity | assumption].
Qed.

Lemma obj_get_update (k : string) (f : json -> json) (props : list (string * json)) :
  obj_get k (obj_update k f props) = option_map f (obj_get k props).
Proof.
  induction props as [|[k' v] r IH]; cbn; [reflexivity|].
  destruct (String.eqb k' k) eqn:E; cbn; now rewrite E.
Qed.

(** Deleting a property that is not there changes nothing. *)
Lemma obj_delete_absent (k : string) (props : list (string * json)) :
  obj_get k props = None -> obj_delete k props = props.
Proof.
  unfold obj_delete. induction props as [|[k' v] r IH]; cbn; [reflexivity|].
  destruct (String.eqb k' k) eqn:E; cbn; [discriminate|].
  intros H. now rewrite (IH H).
Qed.

(** Assigning a property that is not there appends it. *)
Lemma obj_set_absent (k : string) (x : json) (props : list (string * json)) :
  obj_get k props = None -> obj_set k x props = (props ++ [(k, x)])%list.
Proof.
  induction props as [|[k' v] r IH]; cbn; [reflexivity|].
  destruct (String.eqb k' k) eqn:E; [discriminate|].
  intros H. now rewrite (IH H).
Qed.

(** The delta read back after a modification in place. *)
Lemma delta_of_on_delta (f : json -> json) (data delta : json) :
  delta_of data = Some delta -> delta_of (on_delta f data) = Some (f delta).
Proof.
  unfold delta_of, on_delta.
  destruct data as [| | | | |props]; try discriminate.
  cbn [get update]. rewrite obj_get_update.
  destruct (obj_get "choices" props) as [choices|]; [|discriminate].
  cbn [option_map chain].
  destruct choices as [| | |s|items|cprops]; try discriminate; cbn [chain update0 get0].
  - destruct s; discriminate.
  - destruct items as [|el r]; [discriminate|]. cbn [hd_error chain].
    destruct el as [| | | | |eprops]; try discriminate.
    cbn [update get get0 hd_error chain]. rewrite obj_get_update. intros ->. reflexivity.
  - rewrite obj_get_update.
    destruct (obj_get "0" cprops) as [el|]; [|discriminate]. cbn [option_map chain].
    destruct el as [| | | | |eprops]; try discriminate.
    cbn [update get chain]. rewrite obj_get_update. intros ->. reflexivity.
Qed.

End JsonFacts.

(** ** The handlers *)

Section HandlerFacts.

Context {js : JSON}.
Variable SHOW_REASONING : bool.

Lemma handle_lines_app (l1 l2 : list string) : forall started,
  handle_lines SHOW_REASONING (l1 ++ l2) started =
  let '(w1, s1) := handle_lines SHOW_REASONING l1 started in
  let '(w2, s2) := handle_lines SHOW_REASONING l2 s1 in
  ((w1 ++ w2)%list, s2).
Proof.
  induction l1 as [|l r IH]; intros started; cbn [app handle_lines].
  - now destruct (handle_lines SHOW_REASONING l2 started).
  - destruct (handle_line SHOW_REASONING l started) as [w s]. rewrite IH.
    destruct (handle_lines SHOW_REASONING r s) as [w1 s1].
    destruct (handle_lines SHOW_REASONING l2 s1) as [w2 s2].
    now rewrite app_assoc.
Qed.

(** A data event adds its writes after those already made. *)
Lemma on_data_written (chunk : string) (st : stream_state) (res : response) :
  snd (on_data SHOW_REASONING chunk st res) =
  {| written := (written res ++ written (snd (on_data SHOW_REASONING chunk st fresh)))%list;
     ended := ended res |}
  /\ fst (on_data SHOW_REASONING chunk st res) = fst (on_data SHOW_REASONING chunk st fresh).
Proof.
  unfold on_data.
  destruct (Splitter.feed (buffer st) chunk) as [lines b].
  destruct (handle_lines SHOW_REASONING lines (reasoningStarted st)) as [w s]. cbn. auto.
Qed.

(** The data events of a stream amount to the line handler run over the
    lines the splitter hands on; the carry-over goes to the state only. *)
Lemma pump_feed_all (chunks : list string) : forall st res,
  pump SHOW_REASONING chunks st res =
  let '(lines, carry) := Splitter.feed_all (buffer st) chunks in
  let '(w, started) := handle_lines SHOW_REASONING lines (reasoningStarted st) in
  ({| buffer := carry; reasoningStarted := started |},
   {| written := (written res ++ w)%list; ended := ended res |}).
Proof.
  induction chunks as [|c cs IH]; intros st res; cbn [pump Splitter.feed_all].
  - cbn. rewrite app_nil_r. now destruct st, res.
  - unfold on_data. destruct (Splitter.feed (buffer st) c) as [l1 b1].
    destruct (handle_lines SHOW_REASONING l1 (reasoningStarted st)) as [w1 s1] eqn:E1.
    rewrite IH. cbn [buffer reasoningStarted written ended].
    destruct (Splitter.feed_all b1 cs) as [l2 b2].
    rewrite handle_lines_app, E1.
    destruct (handle_lines SHOW_REASONING l2 s1) as [w2 s2]. now rewrite app_assoc.
Qed.

(** The data events of chunks cut on character boundaries leave the state
    and the response that their bytes leave as a single data event. *)
Lemma pump_on_boundaries (chunks : list string) : forall st res,
  has_lf (buffer st) = false ->
  Forall (fun c => Utf8.ends_on_boundary c = true) chunks ->
  pump SHOW_REASONING chunks st res = on_data SHOW_REASONING (Splitter.whole chunks) st res.
Proof.
  induction chunks as [|c cs IH]; intros st res Hb Hcs.
  - cbn. unfold on_data, Splitter.feed, Splitter.pop. cbn.
    rewrite append_empty_r, (split_nl_no_lf _ Hb). cbn.
    rewrite app_nil_r. now destruct st, res.
  - inversion Hcs as [|? ? Hc Hcs']; subst.
    pose proof (ChunkingFacts.feed_all_on_boundaries (c :: cs) (buffer st) Hb Hcs) as F.
    cbn [Splitter.feed_all] in F.
    cbn [pump].
    pose proof (SplitterFacts.feed_carry_no_lf (buffer st) c) as Hcarry.
    unfold on_data at 1.
    destruct (Splitter.feed (buffer st) c) as [l1 b1]. cbn [snd] in Hcarry.
    destruct (handle_lines SHOW_REASONING l1 (reasoningStarted st)) as [w1 s1] eqn:E1.
    rewrite IH by assumption.
    rewrite (ChunkingFacts.feed_all_on_boundaries cs b1 Hcarry Hcs') in F.
    unfold on_data. cbn [buffer reasoningStarted written ended].
    destruct (Splitter.feed b1 (Splitter.whole cs)) as [l2 b2].
    rewrite <- F, handle_lines_app, E1.
    destruct (handle_lines SHOW_REASONING l2 s1) as [w2 s2]. now rewrite app_assoc.
Qed.

End HandlerFacts.

(** ** The merger *)

Module MergerFacts.

Lemma nonempty_append_r (a b : string) : nonempty b = true -> nonempty (a ++ b) = true.
Proof. destruct a; [trivial | reflexivity]. Qed.

Lemma nonempty_not_empty (s : string) : s <> EmptyString -> nonempty s = true.
Proof. destruct s; [congruence | reflexivity]. Qed.

Lemma render_app (ps qs : list piece) : render (ps ++ qs) = render ps ++ render qs.
Proof.
  induction ps as [|p r IH]; [reflexivity|].
  cbn [app render]. now rewrite IH, append_assoc.
Qed.

(** A falsy value can be converted to a string. *)
Lemma falsy_convertible (reasoning : value) :
  truthy_value reasoning = false -> convertible_value reasoning = true.
Proof. destruct reasoning as [[]|]; cbn; congruence. Qed.

Ltac merge_cases reasoning content started :=
  unfold merge, merge_pieces;
  destruct reasoning as [reasoning|], content as [content|], started;
  cbn [truthy_value convertible_value convertible andb negb fst snd toText toText_value];
  repeat
    (match goal with
     | |- context [truthy ?v] => let E := fresh "T" in destruct (truthy v) eqn:E
     | |- context [convertible ?v] =>
         is_var v; let E := fresh "C" in destruct (convertible v) eqn:E
     end;
     cbn [truthy_value convertible_value convertible andb negb fst snd toText
          toText_value]);
  try match goal with
      | T : truthy ?v = false, C : convertible ?v = false |- _ =>
          pose proof (falsy_convertible (Some v) T) as F; cbn in F; congruence
      end;
  cbn [render render_piece app].

(** The merger and its pieces leave the same flag. *)
Lemma merge_flag (reasoning content : value) (started : bool) :
  snd (merge reasoning content started) = snd (merge_pieces reasoning content started).
Proof. merge_cases reasoning content started; try reflexivity; discriminate. Qed.

(** The text of the combined content is the concatenation of the pieces. *)
Lemma merge_render (reasoning content : value) (started : bool) (combined : json) :
  fst (merge reasoning content started) = Some combined ->
  toText combined = render (fst (merge_pieces reasoning content started)).
Proof.
  merge_cases reasoning content started; intros H; try discriminate;
    injection H as <-; cbn [toText];
    rewrite ?append_empty_r, ?append_assoc; reflexivity.
Qed.

(** No piece when the merger throws. *)
Lemma merge_thrown (reasoning content : value) (started : bool) :
  fst (merge reasoning content started) = None ->
  fst (merge_pieces reasoning content started) = [].
Proof. merge_cases reasoning content started; intros H; try discriminate; reflexivity. Qed.

(** The merger does not throw on fragments that can be converted. *)
Lemma merge_convertible (reasoning content : value) (started : bool) :
  convertible_value reasoning = true -> convertible_value content = true ->
  exists combined, fst (merge reasoning content started) = Some combined.
Proof.
  merge_cases reasoning content started; intros Hr Hc; try discriminate; eauto.
Qed.

(** The pieces of one delta alternate from the flag before it to the flag
    after it, unless the merger throws. *)
Lemma merge_pieces_alternates (reasoning content : value) (started : bool)
  (combined : json) :
  fst (merge reasoning content started) = Some combined ->
  alternates started (fst (merge_pieces reasoning content started)) =
  Some (snd (merge_pieces reasoning content started)).
Proof. merge_cases reasoning content started; intros H; try discriminate; reflexivity. Qed.

Lemma alternates_app (ps qs : list piece) : forall started,
  alternates started (ps ++ qs) =
  match alternates started ps with
  | Some s => alternates s qs
  | None => None
  end.
Proof.
  induction ps as [|p r IH]; intros started; [reflexivity|].
  destruct p, started; cbn [app alternates]; auto.
Qed.

(** Markers that alternate are balanced up to the flags at both ends. *)
Lemma alternates_balance (ps : list piece) : forall started final,
  alternates started ps = Some final ->
  opens ps + Nat.b2n started = closes ps + Nat.b2n final.
Proof.
  induction ps as [|p r IH]; intros started final H; cbn in H.
  - injection H as <-. reflexivity.
  - destruct p, started; try discriminate; apply IH in H; cbn in *; lia.
Qed.

End MergerFacts.

(** ** The ordering of the markers *)

Section MarkerFacts.

Context {js : JSON}.
Variable SHOW_REASONING : bool.

(** The pieces of a delta alternate from the flag before it to the flag
    [translate] leaves, unless it throws. *)
Lemma translate_alternates (data delta printed : json) (started : bool) :
  fst (translate SHOW_REASONING data delta started) = Some printed ->
  alternates started
    (if SHOW_REASONING
     then fst (merge_pieces (get "reasoning_content" delta) (get "content" delta) started)
     else []) =
  Some (snd (translate SHOW_REASONING data delta started)).
Proof.
  unfold translate. destruct SHOW_REASONING; [|reflexivity].
  pose proof (MergerFacts.merge_flag (get "reasoning_content" delta) (get "content" delta)
                started) as F.
  pose proof (MergerFacts.merge_pieces_alternates (get "reasoning_content" delta)
                (get "content" delta) started) as A.
  destruct (merge _ _ started) as [[combined|] s']; cbn [fst snd] in *; [|discriminate].
  intros _. rewrite (A combined eq_refl), <- F. now destruct (truthy combined).
Qed.

(** [translate] does not throw on fragments that can be converted. *)
Lemma translate_convertible (data delta : json) (started : bool) :
  convertible_value (get "reasoning_content" delta) &&
  convertible_value (get "content" delta) = true ->
  exists printed, fst (translate SHOW_REASONING data delta started) = Some printed.
Proof.
  intros H. apply andb_true_iff in H as [Hr Hc].
  unfold translate. destruct SHOW_REASONING; [|eexists; reflexivity].
  destruct (MergerFacts.merge_convertible _ _ started Hr Hc) as [combined E].
  destruct (merge _ _ started) as [[c|] s']; cbn [fst] in E; [|discriminate].
  destruct (truthy c); eexists; reflexivity.
Qed.

(** The pieces of a line alternate from the flag before the line to the
    flag the handler leaves, when its fragments can be converted. *)
Lemma line_pieces_alternates (line : string) (started : bool) :
  convertible_fragments line = true ->
  alternates started (line_pieces SHOW_REASONING line started) =
  Some (snd (handle_line SHOW_REASONING line started)).
Proof.
  unfold convertible_fragments, line_pieces, handle_line, try_line.
  intros H.
  destruct (startsWith DATA_PREFIX line); [|reflexivity].
  destruct (includes DONE line); [reflexivity|]. cbn [andb negb].
  destruct (JSON_parse (slice 6 line)) as [data|];
    [|now destruct SHOW_REASONING].
  destruct data; try (now destruct SHOW_REASONING);
    (destruct (delta_of _) as [delta|]; [|now destruct SHOW_REASONING]);
    (destruct (truthy delta); [|now destruct SHOW_REASONING]);
    match goal with
    | |- context [translate ?sh ?d ?dl ?s] =>
        destruct (translate_convertible d dl s H) as [printed E];
        pose proof (translate_alternates d dl printed s E) as G;
        destruct (translate sh d dl s) as [[p|] s']; cbn [fst] in E; [|discriminate]
    end;
    destruct SHOW_REASONING; exact G.
Qed.

Lemma lines_pieces_alternates (lines : list string) : forall started,
  Forall (fun line => convertible_fragments line = true) lines ->
  alternates started (lines_pieces SHOW_REASONING lines started) =
  Some (snd (handle_lines SHOW_REASONING lines started)).
Proof.
  induction lines as [|l ls IH]; intros started H; [reflexivity|].
  inversion H as [|? ? Hl Hls]; subst.
  cbn [lines_pieces handle_lines].
  rewrite MergerFacts.alternates_app, (line_pieces_alternates l started Hl), (IH _ Hls).
  destruct (handle_line SHOW_REASONING l started) as [w s]. cbn [snd].
  now destruct (handle_lines SHOW_REASONING ls s).
Qed.

Lemma pump_pieces_alternates (chunks : list string) : forall st,
  Forall (fun line => convertible_fragments line = true)
    (fst (Splitter.feed_all (buffer st) chunks)) ->
  exists final,
    alternates (reasoningStarted st) (pump_pieces SHOW_REASONING chunks st) = Some final.
Proof.
  induction chunks as [|c cs IH]; intros st H; cbn [pump_pieces].
  - now exists (reasoningStarted st).
  - cbn [Splitter.feed_all] in H.
    assert (B : buffer (fst (on_data SHOW_REASONING c st fresh)) =
                snd (Splitter.feed (buffer st) c) /\
                reasoningStarted (fst (on_data SHOW_REASONING c st fresh)) =
                snd (handle_lines SHOW_REASONING (fst (Splitter.feed (buffer st) c))
                       (reasoningStarted st))).
    { unfold on_data. destruct (Splitter.feed (buffer st) c) as [lines b]. cbn [fst snd].
      now destruct (handle_lines SHOW_REASONING lines (reasoningStarted st)). }
    destruct B as [Bb Bs].
    destruct (Splitter.feed (buffer st) c) as [lines b]. cbn [fst snd] in *.
    destruct (Splitter.feed_all b cs) as [lines' b'] eqn:E. cbn [fst] in H.
    apply Forall_app in H as [H1 H2].
    rewrite MergerFacts.alternates_app, (lines_pieces_alternates lines _ H1).
    destruct (IH (fst (on_data SHOW_REASONING c st fresh))) as [final Hf].
    { rewrite Bb, E. exact H2. }
    exists final. rewrite <- Hf, Bs. reflexivity.
Qed.

End MarkerFacts.

(** ** The end of the stream *)

Section PumpFacts.

Context {js : JSON}.
Variable SHOW_REASONING : bool.

Lemma pump_snoc (chunks : list string) (c : string) : forall st res,
  pump SHOW_REASONING (chunks ++ [c]) st res =
  on_data SHOW_REASONING c (fst (pump SHOW_REASONING chunks st res))
    (snd (pump SHOW_REASONING chunks st res)).
Proof.
  induction chunks as [|x r IH]; intros st res; cbn [app pump fst snd].
  - now destruct (on_data SHOW_REASONING c st res).
  - destruct (on_data SHOW_REASONING x st res) as [st' res']. apply IH.
Qed.

(** The carry-over never holds a line feed. *)
Lemma pump_carry_no_lf (chunks : list string) : forall st res,
  has_lf (buffer st) = false ->
  has_lf (buffer (fst (pump SHOW_REASONING chunks st res))) = false.
Proof.
  induction chunks as [|c cs IH]; intros st res H; cbn [pump]; [assumption|].
  destruct (on_data SHOW_REASONING c st res) as [st' res'] eqn:E. apply IH.
  apply (f_equal fst) in E. cbn [fst] in E. subst st'. unfold on_data.
  pose proof (SplitterFacts.feed_carry_no_lf (buffer st) c) as F.
  destruct (Splitter.feed (buffer st) c) as [lines b].
  now destruct (handle_lines SHOW_REASONING lines (reasoningStarted st)).
Qed.

(** A chunk without line feed is added to the carry-over and nothing is
    written. *)
Lemma on_data_partial (tail : string) (st : stream_state) (res : response) :
  has_lf (buffer st) = false -> has_lf tail = false ->
  on_data SHOW_REASONING tail st res =
  ({| buffer := buffer st ++ Utf8.toString tail; reasoningStarted := reasoningStarted st |},
   res).
Proof.
  intros Hb Ht. unfold on_data, Splitter.feed, Splitter.pop.
  rewrite split_nl_no_lf by
    (rewrite has_lf_append, Hb; cbn [orb]; now apply Utf8Facts.toString_no_lf).
  cbn. rewrite app_nil_r. now destruct res.
Qed.

End PumpFacts.

(** A line followed by a line feed splits into the line and an empty
    carry-over. *)
Lemma split_nl_line (line : string) :
  has_lf line = false -> split_nl (line ++ NL) = [line; EmptyString].
Proof.
  induction line as [|c r IH]; [reflexivity|].
  cbn [has_lf]. intros H. apply orb_false_iff in H as [Hc Hr].
  change (String c r ++ NL) with (String c (r ++ NL)).
  cbn [split_nl]. now rewrite Hc, (IH Hr).
Qed.

(** ** Frames that are written as they came *)

Section VerbatimFacts.

Context {js : JSON}.

(** A data line in which the sentinel text occurs anywhere is written as
    it came, whatever its payload is. *)
Lemma handle_line_sentinel (show : bool) (line : string) (started : bool) :
  startsWith DATA_PREFIX line = true -> includes DONE line = true ->
  handle_line show line started = ([line ++ NL ++ NL], started).
Proof. intros Hp Hd. unfold handle_line. now rewrite Hp, Hd. Qed.

(** A payload that parses to null makes the try block throw. *)
Lemma handle_line_null (show : bool) (line : string) (started : bool) :
  startsWith DATA_PREFIX line = true -> JSON_parse (slice 6 line) = Some JNull ->
  handle_line show line started = ([line ++ NL ++ NL], started).
Proof.
  intros Hp Hj. unfold handle_line, try_line. rewrite Hp, Hj.
  now destruct (includes DONE line).
Qed.

End VerbatimFacts.

(** ** The splitter over a stream, and well-formed text *)

Module StreamFacts.
Import Splitter.

Lemma concat_split_nl (s : string) : String.concat NL (split_nl s) = s.
Proof.
  induction s as [|c r IH]; [reflexivity|].
  cbn [split_nl]. pose proof (split_nl_not_nil r) as Hr.
  destruct (Ascii.eqb c LF) eqn:E.
  - apply Ascii.eqb_eq in E. subst c.
    destruct (split_nl r) as [|h t] eqn:Er; [contradiction|].
    cbn [String.concat]. cbn [String.concat] in IH. now rewrite IH.
  - destruct (split_nl r) as [|h t] eqn:Er; [contradiction|].
    destruct t as [|h' t']; cbn [String.concat] in *; cbn [append]; now rewrite IH.
Qed.

Lemma pop_restores (lines : list string) :
  lines <> [] -> (fst (pop lines) ++ [snd (pop lines)])%list = lines.
Proof. intros H. unfold pop. cbn [fst snd]. symmetry. now apply app_removelast_last. Qed.

Lemma concat_cons (l : string) (ls : list string) :
  ls <> [] -> String.concat NL (l :: ls) = l ++ NL ++ String.concat NL ls.
Proof. destruct ls; [contradiction | reflexivity]. Qed.

Lemma snoc_not_nil {A} (l : list A) (x : A) : (l ++ [x])%list <> [].
Proof. now destruct l. Qed.

Lemma concat_snoc (ls : list string) (carry rest : string) :
  String.concat NL (ls ++ [carry]) ++ rest =
  String.concat NL (ls ++ [(carry ++ rest)%string]).
Proof.
  induction ls as [|l r IH]; [reflexivity|].
  cbn [app]. rewrite !concat_cons by apply snoc_not_nil.
  now rewrite !append_assoc, IH.
Qed.

Lemma concat_app_lines (l1 l2 : list string) (carry : string) :
  String.concat NL (l1 ++ l2 ++ [carry]) =
  String.concat NL (l1 ++ [String.concat NL (l2 ++ [carry])]).
Proof.
  induction l1 as [|l r IH]; cbn [app]; [reflexivity|].
  rewrite !concat_cons; [now rewrite IH | apply snoc_not_nil |].
  rewrite app_assoc. apply snoc_not_nil.
Qed.

(** The lines handed on, joined by line feeds and followed by the
    carry-over, are the carry-over before them followed by the decoded
    chunks. *)
Lemma feed_all_concat (chunks : list string) : forall buffer,
  String.concat NL (fst (feed_all buffer chunks) ++ [snd (feed_all buffer chunks)]) =
  buffer ++ whole (map Utf8.toString chunks).
Proof.
  induction chunks as [|c cs IH]; intros buffer.
  - cbn. now rewrite append_empty_r.
  - cbn [feed_all map]. change (whole (?x :: ?l)) with (x ++ whole l).
    unfold feed.
    pose proof (pop_restores _ (split_nl_not_nil (buffer ++ Utf8.toString c))) as R.
    destruct (pop (split_nl (buffer ++ Utf8.toString c))) as [l1 b1].
    cbn [fst snd] in R. specialize (IH b1).
    destruct (feed_all b1 cs) as [l2 b2]. cbn [fst snd] in *.
    rewrite <- app_assoc, concat_app_lines, IH.
    rewrite <- concat_snoc, R, concat_split_nl. now rewrite append_assoc.
Qed.

Lemma removelast_forall {A} (P : A -> Prop) (l : list A) :
  Forall P l -> Forall P (removelast l).
Proof.
  induction 1 as [|x r Hx Hr IH]; [constructor|].
  cbn [removelast]. destruct r; [constructor | now constructor].
Qed.

(** No line the splitter hands on holds a line feed. *)
Lemma feed_all_lines_no_lf (chunks : list string) : forall buffer,
  Forall (fun l => has_lf l = false) (fst (feed_all buffer chunks)).
Proof.
  induction chunks as [|c cs IH]; intros buffer; cbn [feed_all]; [constructor|].
  pose proof (removelast_forall _ _ (split_nl_segments (buffer ++ Utf8.toString c))) as H.
  unfold feed, pop.
  specialize (IH (last (split_nl (buffer ++ Utf8.toString c)) EmptyString)).
  destruct (feed_all _ cs) as [ls' b']. cbn [fst] in *.
  apply Forall_app. split; assumption.
Qed.

(** The carry-over never holds a line feed. *)
Lemma feed_all_carry_no_lf (chunks : list string) : forall buffer,
  has_lf buffer = false -> has_lf (snd (feed_all buffer chunks)) = false.
Proof.
  induction chunks as [|c cs IH]; intros buffer Hb; [exact Hb|].
  cbn [feed_all].
  pose proof (SplitterFacts.feed_carry_no_lf buffer c) as Hc.
  destruct (feed buffer c) as [l1 b1]. cbn [snd] in Hc.
  specialize (IH b1 Hc). now destruct (feed_all b1 cs).
Qed.

Lemma is_ascii_settled (s : string) : is_ascii s = true -> Utf8.after Utf8.start s = Utf8.start.
Proof.
  induction s as [|c r IH]; [reflexivity|].
  cbn [is_ascii Utf8.after]. intros H. apply andb_true_iff in H as [Hc Hr].
  unfold Utf8.step. cbn [Utf8.needed Utf8.start]. unfold Utf8.lead.
  apply N.ltb_lt in Hc.
  replace (N_of_ascii c <=? 127)%N with true by (symmetry; apply N.leb_le; lia).
  cbn [snd]. now apply IH.
Qed.

Lemma is_ascii_on_boundary (s : string) :
  is_ascii s = true -> Utf8.ends_on_boundary s = true.
Proof.
  intros H. unfold Utf8.ends_on_boundary. now rewrite (is_ascii_settled s H).
Qed.

(** Well-formed text is decoded to itself. *)
Lemma run_well_formed (bytes : string) : forall d,
  (Utf8.needed d = 0 -> Utf8.pending d = EmptyString) ->
  Utf8.well_formed_from d bytes = true ->
  Utf8.run d bytes = Utf8.pending d ++ bytes.
Proof.
  induction bytes as [|b r IH]; intros d Hd H; cbn [Utf8.well_formed_from Utf8.run] in *.
  - apply Nat.eqb_eq in H. unfold Utf8.flush. rewrite H, (Hd H). reflexivity.
  - apply andb_true_iff in H as [Hb Hr]. revert Hb Hr. unfold Utf8.step.
    destruct (Utf8.needed d) as [|k] eqn:En.
    + rewrite (Hd eq_refl). unfold Utf8.lead.
      repeat match goal with
             | |- context [if ?c then _ else _] =>
                 destruct c;
                 [ intros _ Hr; cbn [fst snd] in *;
                   rewrite IH;
                   [ reflexivity | cbn; intros; (discriminate || reflexivity) | exact Hr ]
                 | ]
             end.
      discriminate.
    + intros Hb. rewrite Hb. destruct k as [|k']; intros Hr; cbn [fst snd] in *;
        (rewrite IH;
         [ cbn [Utf8.pending Utf8.start append]; rewrite append_assoc; reflexivity
         | cbn; intros; (discriminate || reflexivity) | exact Hr ]).
Qed.

Lemma toString_well_formed (chunk : string) :
  Utf8.well_formed chunk = true -> Utf8.toString chunk = chunk.
Proof. intros H. apply (run_well_formed chunk Utf8.start (fun _ => eq_refl) H). Qed.

Lemma toString_well_formed_all (chunks : list string) :
  Forall (fun c => Utf8.well_formed c = true) chunks -> map Utf8.toString chunks = chunks.
Proof.
  induction 1 as [|c cs Hc _ IH]; [reflexivity|].
  cbn [map]. now rewrite (toString_well_formed c Hc), IH.
Qed.

End StreamFacts.

(** ** The statements of the specification *)

(** C1, as stated, fails.  With reasoning display disabled the scenario
    stream is written as four frames, not two: each reasoning frame goes out
    as a frame with empty content. *)
Lemma C1_reasoning_frames_are_written :
  written (snd (run_stream false Scenario.frames)) =
    [ Scenario.content_frame EmptyString;
      Scenario.content_frame EmptyString;
      Scenario.content_frame "42";
      Scenario.event DONE ].
Proof. vm_compute. reflexivity. Qed.

(** C1, amended.  With reasoning display disabled, a data frame without
    the sentinel text whose payload parses to an object with a delta object
    is written as exactly one frame: the parsed object printed again, with
    the reasoning field of its delta removed and the content of its delta set
    to the content it had, or to the empty string when it had none.  The flag
    is untouched and the merger produces no piece, so no marker.  A delta
    with only a reasoning fragment therefore goes out as one frame with empty
    content. *)
Theorem C1_disabled_strips_reasoning (js : JSON) (line : string) (started : bool)
  (data : json) (props : list (string * json)) :
  startsWith DATA_PREFIX line = true ->
  includes DONE line = false ->
  JSON_parse (slice 6 line) = Some data ->
  delta_of data = Some (JObj props) ->
  let content := or_empty (obj_get "content" props) in
  let data' :=
    on_delta (fun d => delete "reasoning_content" (set "content" content d)) data in
  handle_line false line started =
    ([DATA_PREFIX ++ JSON_stringify data' ++ NL ++ NL], started) /\
  (exists props',
      delta_of data' = Some (JObj props') /\
      obj_get "reasoning_content" props' = None /\
      obj_get "content" props' = Some content) /\
  (obj_get "content" props = None -> content = JStr EmptyString) /\
  line_pieces false line started = [].
Proof.
  intros Hp Hd Hj Hdelta content data'.
  split; [|split; [|split]].
  - unfold handle_line, try_line. rewrite Hp, Hd, Hj.
    destruct data; try discriminate. rewrite Hdelta. reflexivity.
  - exists (obj_delete "reasoning_content" (obj_set "content" content props)).
    split; [|split].
    + unfold data'. now rewrite (JsonFacts.delta_of_on_delta _ _ _ Hdelta).
    + apply JsonFacts.obj_get_delete_same.
    + rewrite JsonFacts.obj_get_delete_other by reflexivity.
      apply JsonFacts.obj_get_set_same.
  - unfold content. now intros ->.
  - unfold line_pieces. now rewrite andb_false_r.
Qed.

Lemma C1_disabled_strips_reasoning_witness :
  let line := DATA_PREFIX ++ dq "{'choices':[{'delta':{'reasoning_content':'Let'}}]}" in
  let delta := JObj [("reasoning_content", JStr "Let")] in
  let data := JObj [("choices", JArr [JObj [("delta", delta)]])] in
  startsWith DATA_PREFIX line = true /\
  includes DONE line = false /\
  @JSON_parse lite (slice 6 line) = Some data /\
  delta_of data = Some delta /\
  handle_line (js := lite) false line true = ([Scenario.content_frame EmptyString], true).
Proof.
  cbv zeta.
  split; [reflexivity|]. split; [reflexivity|]. split; [reflexivity|]. split; [reflexivity|].
  rewrite (proj1 (C1_disabled_strips_reasoning lite
                    (DATA_PREFIX ++ dq "{'choices':[{'delta':{'reasoning_content':'Let'}}]}")
                    true
                    (JObj [("choices",
                            JArr [JObj [("delta", JObj [("reasoning_content", JStr "Let")])]])])
                    [("reasoning_content", JStr "Let")]
                    eq_refl eq_refl eq_refl eq_refl)).
  reflexivity.
Defined.

(** C2.  The specification asks that the splitter hands on the same
    frames however the bytes are cut into chunks.  A sentinel frame cut as
    [DO and NE] gives no line after the first chunk and the whole line after
    the second, as asked.  A content frame cut
    between the two bytes of a character does not give the line of the uncut
    frame: each chunk is decoded on its own, so each half of the character
    becomes U+FFFD, in the line handed on and in the frame written. *)
Theorem C2_chunk_boundary_inside_a_character :
  Splitter.feed EmptyString "data: [DO" = ([], "data: [DO") /\
  Splitter.feed "data: [DO" ("NE]" ++ NL) = (["data: [DONE]"], EmptyString) /\
  Splitter.feed_all EmptyString [Scenario.cut_head ++ Scenario.cut_tail] =
    ([DATA_PREFIX ++ dq "{'choices':[{'delta':{'content':'caf" ++
        Scenario.E_ACUTE_1 ++ Scenario.E_ACUTE_2 ++ dq "'}}]}"; EmptyString],
     EmptyString) /\
  Splitter.feed_all EmptyString [Scenario.cut_head; Scenario.cut_tail] =
    ([DATA_PREFIX ++ dq "{'choices':[{'delta':{'content':'caf" ++
        Utf8.REPLACEMENT ++ Utf8.REPLACEMENT ++ dq "'}}]}"; EmptyString],
     EmptyString) /\
  written (snd (run_stream false [Scenario.cut_head ++ Scenario.cut_tail])) =
    [Scenario.content_frame ("caf" ++ Scenario.E_ACUTE_1 ++ Scenario.E_ACUTE_2)] /\
  written (snd (run_stream false [Scenario.cut_head; Scenario.cut_tail])) =
    [Scenario.content_frame ("caf" ++ Utf8.REPLACEMENT ++ Utf8.REPLACEMENT)].
Proof. repeat split. Qed.

(** C3.  With reasoning display enabled the merger follows the transition
    table.  Closed and a reasoning fragment: the open marker and the text,
    then Open.  Open and a reasoning fragment: the text alone.  Open and a
    content fragment: the close marker and the content, then Closed.  Closed
    and a content fragment: the content alone.  The scenario stream (two
    reasoning frames, a content frame, the sentinel) is written as three
    frames whose content is the open marker and Let, then me think, then the
    close marker and 42, followed by the sentinel frame. *)
Theorem C3_transition_table :
  (forall (r : string) (content : value),
      r <> EmptyString -> truthy_value content = false ->
      merge (Some (JStr r)) content false = (Some (JStr (THINK_OPEN ++ r)), true)) /\
  (forall (r : string) (content : value),
      r <> EmptyString -> truthy_value content = false ->
      merge (Some (JStr r)) content true = (Some (JStr r), true)) /\
  (forall (c : string) (reasoning : value),
      c <> EmptyString -> truthy_value reasoning = false ->
      merge reasoning (Some (JStr c)) true = (Some (JStr (THINK_CLOSE ++ c)), false)) /\
  (forall (c : string) (reasoning : value),
      c <> EmptyString -> truthy_value reasoning = false ->
      merge reasoning (Some (JStr c)) false = (Some (JStr c), false)) /\
  written (snd (run_stream true Scenario.frames)) =
    [ Scenario.event (dq "{'choices':[{'delta':{'content':'<think>\nLet'}}]}");
      Scenario.event (dq "{'choices':[{'delta':{'content':' me think'}}]}");
      Scenario.event (dq "{'choices':[{'delta':{'content':'</think>\n\n42'}}]}");
      Scenario.event DONE ].
Proof.
  split; [|split; [|split; [|split]]].
  - intros r content Hr Hc. unfold merge. cbn [truthy_value truthy convertible_value convertible].
    rewrite (MergerFacts.nonempty_not_empty r Hr), Hc. reflexivity.
  - intros r content Hr Hc. unfold merge. cbn [truthy_value truthy].
    rewrite (MergerFacts.nonempty_not_empty r Hr), Hc. reflexivity.
  - intros c reasoning Hc Hr. unfold merge.
    destruct reasoning as [x|]; cbn [truthy_value truthy convertible_value convertible] in *;
      rewrite ?Hr, (MergerFacts.nonempty_not_empty c Hc); reflexivity.
  - intros c reasoning Hc Hr. unfold merge.
    destruct reasoning as [x|]; cbn [truthy_value truthy convertible_value convertible] in *;
      rewrite ?Hr, (MergerFacts.nonempty_not_empty c Hc); reflexivity.
  - vm_compute. reflexivity.
Qed.

Lemma C3_transition_table_witness :
  merge (Some (JStr "Let")) None false = (Some (JStr (THINK_OPEN ++ "Let")), true) /\
  merge (Some (JStr " me think")) None true = (Some (JStr " me think"), true) /\
  merge None (Some (JStr "42")) true = (Some (JStr (THINK_CLOSE ++ "42")), false) /\
  merge None (Some (JStr "42")) false = (Some (JStr "42"), false).
Proof.
  destruct C3_transition_table as (T1 & T2 & T3 & T4 & _).
  split; [apply T1; [discriminate | reflexivity]|].
  split; [apply T2; [discriminate | reflexivity]|].
  split; [apply T3 | apply T4]; solve [discriminate | reflexivity].
Defined.

(** C4.  A delta that carries both a reasoning fragment and a content
    fragment gives, in one combined content: the open marker when the span
    was closed, the reasoning text, the close marker, the content text, in
    this order; the span is closed afterwards.  The frame written for it is
    the single frame whose content is that text.  A fragment is a truthy
    value that can be converted to text, as every non-empty string can. *)
Theorem C4_reasoning_before_content (reasoning content : json) (started : bool) :
  truthy reasoning = true -> truthy content = true ->
  convertible reasoning = true -> convertible content = true ->
  merge (Some reasoning) (Some content) started =
    (Some (JStr ((if started then EmptyString else THINK_OPEN) ++
                 toText reasoning ++ THINK_CLOSE ++ toText content)), false) /\
  merge_pieces (Some reasoning) (Some content) started =
    (((if started then [] else [Open]) ++
      [Text (toText reasoning); Close; Text (toText content)])%list, false) /\
  forall (js : JSON) (line : string) (data : json) (props : list (string * json)),
    startsWith DATA_PREFIX line = true ->
    includes DONE line = false ->
    JSON_parse (slice 6 line) = Some data ->
    delta_of data = Some (JObj props) ->
    obj_get "reasoning_content" props = Some reasoning ->
    obj_get "content" props = Some content ->
    handle_line true line started =
      ([DATA_PREFIX ++
        JSON_stringify
          (on_delta
             (fun d =>
                delete "reasoning_content"
                  (set "content"
                     (JStr ((if started then EmptyString else THINK_OPEN) ++
                            toText reasoning ++ THINK_CLOSE ++ toText content)) d))
             data) ++ NL ++ NL], false).
Proof.
  intros Hr Hc Cr Cc.
  assert (M : merge (Some reasoning) (Some content) started =
              (Some (JStr ((if started then EmptyString else THINK_OPEN) ++
                           toText reasoning ++ THINK_CLOSE ++ toText content)), false)).
  { unfold merge. cbn [truthy_value convertible_value]. rewrite Hr, Hc, Cr.
    destruct started; cbn [andb negb toText_value convertible toText];
      rewrite ?Cr, Cc; cbn [andb]; [reflexivity|].
    now rewrite append_assoc. }
  split; [exact M|]. split.
  - unfold merge_pieces. cbn [truthy_value convertible_value]. rewrite Hr, Hc, Cr, Cc.
    destruct started; reflexivity.
  - intros js line data props Hp Hd Hj Hdelta Hgr Hgc.
    unfold handle_line. rewrite Hp, Hd. unfold try_line. rewrite Hj.
    destruct data; try discriminate; rewrite Hdelta; cbn [truthy];
      unfold translate; cbn [get]; rewrite Hgr, Hgc, M; cbn [truthy];
      rewrite MergerFacts.nonempty_append_r; try reflexivity;
      apply MergerFacts.nonempty_append_r; reflexivity.
Qed.

Lemma C4_reasoning_before_content_witness :
  truthy (JStr "a") = true /\ truthy (JStr "b") = true /\
  merge (Some (JStr "a")) (Some (JStr "b")) false =
    (Some (JStr (THINK_OPEN ++ "a" ++ THINK_CLOSE ++ "b")), false) /\
  merge_pieces (Some (JStr "a")) (Some (JStr "b")) false =
    ([Open; Text "a"; Close; Text "b"], false) /\
  handle_line (js := lite) true Scenario.both_frame false =
    ([Scenario.event (dq "{'choices':[{'delta':{'content':'<think>\na</think>\n\nb'}}]}")],
     false).
Proof.
  split; [reflexivity|]. split; [reflexivity|].
  pose proof (C4_reasoning_before_content (JStr "a") (JStr "b") false
                eq_refl eq_refl eq_refl eq_refl)
    as (M & P & F).
  split; [exact M|]. split; [exact P|].
  rewrite (F lite Scenario.both_frame
             (JObj [("choices",
                     JArr [JObj [("delta",
                                  JObj [("reasoning_content", JStr "a");
                                        ("content", JStr "b")])]])])
             [("reasoning_content", JStr "a"); ("content", JStr "b")]);
    reflexivity.
Defined.

(** C5.  The specification makes a frame terminal exactly when its
    payload is the sentinel, and has every other data frame parsed.  The
    handler looks for the sentinel anywhere in the line instead of comparing
    it with the payload.  The payload of this frame is not the sentinel and
    parses to a delta object with both fragments, and the frame is written as
    it came in both modes, its reasoning field included, with the flag
    untouched.  The sentinel frame itself is written as it came. *)
Theorem C5_sentinel_text_inside_a_fragment :
  String.eqb (slice 6 Scenario.quoting_frame) DONE = false /\
  @JSON_parse lite (slice 6 Scenario.quoting_frame) =
    Some (JObj [("choices",
                 JArr [JObj [("delta",
                              JObj [("reasoning_content", JStr "plan");
                                    ("content", JStr "send [DONE] last")])]])]) /\
  (forall show started : bool,
      handle_line (js := lite) show Scenario.quoting_frame started =
        ([Scenario.quoting_frame ++ NL ++ NL], started)) /\
  (forall (js : JSON) (show started : bool),
      handle_line show (DATA_PREFIX ++ DONE) started =
        ([DATA_PREFIX ++ DONE ++ NL ++ NL], started)).
Proof.
  split; [reflexivity|]. split; [reflexivity|]. split.
  - intros show started. now apply handle_line_sentinel.
  - intros js show started. now rewrite handle_line_sentinel.
Qed.

(** C6, as stated, fails.  The handler works on the decoded text of the
    chunks, not on their bytes: a frame whose payload does not parse and
    which holds the byte 0xFF is written with U+FFFD in its place. *)
Lemma C6_ill_formed_bytes_are_replaced :
  Utf8.well_formed (Scenario.ill_formed_frame ++ NL) = false /\
  Splitter.feed EmptyString (Scenario.ill_formed_frame ++ NL) =
    (["data: {oops " ++ Utf8.REPLACEMENT], EmptyString) /\
  @JSON_parse lite (slice 6 ("data: {oops " ++ Utf8.REPLACEMENT)) = None /\
  written (snd (run_stream false [Scenario.ill_formed_frame ++ NL])) =
    ["data: {oops " ++ Utf8.REPLACEMENT ++ NL ++ NL].
Proof.
  split; [reflexivity|]. split; [reflexivity|]. split; [reflexivity|].
  vm_compute. reflexivity.
Qed.

(** C6, amended.  A data-prefixed line whose payload does not parse is
    written as the splitter handed it on, followed by the blank line, and
    nothing else happens: the flag is unchanged and the lines after it are
    handled as they would be without it.  When every chunk received is
    well-formed UTF-8, the lines handed on are the bytes received, cut at the
    line feeds, so that such a frame goes out with the bytes it came with,
    between the writes for the lines before it and those for the lines after
    it. *)
Theorem C6_malformed_frame_forwarded (js : JSON) (show : bool) :
  (forall (line : string) (rest : list string) (started : bool),
      startsWith DATA_PREFIX line = true ->
      JSON_parse (slice 6 line) = None ->
      handle_line show line started = ([line ++ NL ++ NL], started) /\
      handle_lines show (line :: rest) started =
        ((line ++ NL ++ NL) :: fst (handle_lines show rest started),
         snd (handle_lines show rest started))) /\
  (forall chunks : list string,
      Forall (fun c => Utf8.well_formed c = true) chunks ->
      String.concat NL (fst (Splitter.feed_all EmptyString chunks) ++
                        [snd (Splitter.feed_all EmptyString chunks)]) =
        Splitter.whole chunks /\
      forall (before : list string) (line : string) (rest : list string),
        fst (Splitter.feed_all EmptyString chunks) = (before ++ line :: rest)%list ->
        startsWith DATA_PREFIX line = true ->
        JSON_parse (slice 6 line) = None ->
        written (snd (stream show chunks)) =
          (fst (handle_lines show before false) ++
           (line ++ NL ++ NL)%string ::
           fst (handle_lines show rest (snd (handle_lines show before false))))%list).
Proof.
  assert (L : forall (line : string) (rest : list string) (started : bool),
             startsWith DATA_PREFIX line = true ->
             JSON_parse (slice 6 line) = None ->
             handle_line show line started = ([line ++ NL ++ NL], started) /\
             handle_lines show (line :: rest) started =
               ((line ++ NL ++ NL) :: fst (handle_lines show rest started),
                snd (handle_lines show rest started))).
  { intros line rest started Hp Hj.
    assert (H : handle_line show line started = ([line ++ NL ++ NL], started)).
    { unfold handle_line, try_line. rewrite Hp, Hj. now destruct (includes DONE line). }
    split; [exact H|].
    cbn [handle_lines]. rewrite H. now destruct (handle_lines show rest started). }
  split; [exact L|].
  intros chunks Hw. split.
  - rewrite StreamFacts.feed_all_concat, (StreamFacts.toString_well_formed_all chunks Hw).
    reflexivity.
  - intros before line rest E Hp Hj.
    unfold stream. rewrite pump_feed_all.
    cbn [buffer reasoningStarted initial written fresh app].
    destruct (Splitter.feed_all EmptyString chunks) as [lines carry]. cbn [fst] in E.
    subst lines. rewrite handle_lines_app.
    destruct (handle_lines show before false) as [w1 s1]. cbn [fst snd].
    rewrite (proj2 (L line rest s1 Hp Hj)). cbn [written snd]. reflexivity.
Qed.

Lemma C6_malformed_frame_forwarded_witness :
  Forall (fun c => Utf8.well_formed c = true)
    ["data: {oops" ++ NL; Scenario.content_frame "42"] /\
  Splitter.feed_all EmptyString ["data: {oops" ++ NL; Scenario.content_frame "42"] =
    (["data: {oops"; DATA_PREFIX ++ dq "{'choices':[{'delta':{'content':'42'}}]}";
      EmptyString], EmptyString) /\
  startsWith DATA_PREFIX "data: {oops" = true /\
  @JSON_parse lite (slice 6 "data: {oops") = None /\
  written (snd (stream (js := lite) false
                  ["data: {oops" ++ NL; Scenario.content_frame "42"])) =
    ["data: {oops" ++ NL ++ NL; Scenario.content_frame "42"].
Proof.
  assert (W : Forall (fun c => Utf8.well_formed c = true)
                ["data: {oops" ++ NL; Scenario.content_frame "42"])
    by (constructor; [reflexivity | constructor; [reflexivity | constructor]]).
  split; [exact W|]. split; [reflexivity|]. split; [reflexivity|]. split; [reflexivity|].
  rewrite (proj2 (proj2 (C6_malformed_frame_forwarded lite false) _ W)
             [] "data: {oops"
             [DATA_PREFIX ++ dq "{'choices':[{'delta':{'content':'42'}}]}"; EmptyString]
             eq_refl eq_refl eq_refl).
  reflexivity.
Defined.

(** C7.  The specification asks that a close marker never comes without
    an open marker that is still unmatched.  The handler raises the flag at
    line 219, before the concatenation of line 225; when the content of the
    delta cannot be converted to a string that concatenation throws, the catch
    block writes the frame as it came, and the flag stays raised although no
    open marker was written.  The next content fragment is then written
    behind a close marker: over this stream of two frames the caller gets one
    close marker and no open marker. *)
Theorem C7_close_marker_without_open_marker :
  @JSON_parse lite (slice 6 Scenario.throwing_frame) =
    Some (JObj [("choices",
                 JArr [JObj [("delta",
                              JObj [("reasoning_content", JStr "r");
                                    ("content", JObj [("toString", JNum "1")])])]])]) /\
  merge (Some (JStr "r")) (Some (JObj [("toString", JNum "1")])) false = (None, true) /\
  handle_line (js := lite) true Scenario.throwing_frame false =
    ([Scenario.throwing_frame ++ NL ++ NL], true) /\
  run_stream true [Scenario.throwing_frame ++ NL; Scenario.content_frame "x"] =
    ({| buffer := EmptyString; reasoningStarted := false |},
     {| written :=
          [Scenario.throwing_frame ++ NL ++ NL;
           Scenario.event (dq "{'choices':[{'delta':{'content':'</think>\n\nx'}}]}")];
        ended := true |}) /\
  pump_pieces (js := lite) true
    [Scenario.throwing_frame ++ NL; Scenario.content_frame "x"] initial =
    [Close; Text "x"] /\
  opens [Close; Text "x"] = 0 /\
  closes [Close; Text "x"] = 1.
Proof.
  split; [reflexivity|]. split; [reflexivity|]. split; [reflexivity|].
  split; [vm_compute; reflexivity|]. split; [vm_compute; reflexivity|].
  split; reflexivity.
Qed.

(** C8.  The end handler writes nothing and ends the response, whatever
    the carry-over holds: the response of a stream that ends is the writes of
    its data events, ended, and these are the writes for the complete lines
    the splitter handed on; the carry-over is in the state only.  A last
    chunk without line feed stays in the carry-over and adds no write, so the
    partial line it leaves is never written, and no terminator is written
    when no sentinel frame came. *)
Theorem C8_end_discards_carry_over (js : JSON) (show : bool) :
  (forall (st : stream_state) (res : response),
      on_end st res = (st, {| written := written res; ended := true |})) /\
  (forall chunks : list string,
      snd (stream show chunks) =
        {| written := written (snd (pump show chunks initial fresh)); ended := true |}) /\
  (forall chunks : list string,
      snd (stream show chunks) =
        {| written :=
             fst (handle_lines show (fst (Splitter.feed_all EmptyString chunks)) false);
           ended := true |} /\
      buffer (fst (stream show chunks)) = snd (Splitter.feed_all EmptyString chunks)) /\
  (forall (chunks : list string) (tail : string),
      has_lf tail = false ->
      snd (stream show (chunks ++ [tail])) = snd (stream show chunks) /\
      buffer (fst (stream show (chunks ++ [tail]))) =
        buffer (fst (stream show chunks)) ++ Utf8.toString tail).
Proof.
  split; [reflexivity|]. split; [|split].
  - intros chunks. unfold stream. now destruct (pump show chunks initial fresh).
  - intros chunks. unfold stream. rewrite pump_feed_all.
    cbn [buffer reasoningStarted initial written fresh ended app].
    destruct (Splitter.feed_all EmptyString chunks) as [lines carry]. cbn [fst snd].
    now destruct (handle_lines show lines false).
  - intros chunks tail Ht. unfold stream. rewrite pump_snoc.
    pose proof (pump_carry_no_lf show chunks initial fresh eq_refl) as Hb.
    rewrite (on_data_partial show tail _ _ Hb Ht).
    now destruct (pump show chunks initial fresh).
Qed.

Lemma C8_end_discards_carry_over_witness :
  has_lf "data: {partial" = false /\
  run_stream false [Scenario.content_frame "42"; "data: {partial"] =
    ({| buffer := "data: {partial"; reasoningStarted := false |},
     {| written := [Scenario.content_frame "42"]; ended := true |}).
Proof.
  split; [reflexivity|].
  destruct (proj2 (proj2 (proj2 (C8_end_discards_carry_over lite false)))
              [Scenario.content_frame "42"] "data: {partial" eq_refl) as [W B].
  unfold run_stream.
  destruct (stream (js := lite) false ([Scenario.content_frame "42"] ++ ["data: {partial"]))
    as [st res] eqn:E.
  change ([Scenario.content_frame "42"; "data: {partial"])
    with ([Scenario.content_frame "42"] ++ ["data: {partial"])%list.
  rewrite E. cbn [fst snd] in W, B. subst res. destruct st as [b s].
  cbn [buffer] in B. subst b.
  apply (f_equal (fun p => reasoningStarted (fst p))) in E. cbn in E. subst s.
  reflexivity.
Defined.

(** C9, as stated, fails.  The payload of the first frame parses (to
    null), and the frame is written with its own bytes, two blanks included,
    not with the printed form of the parsed value.  The payload of the second
    frame parses to an object, and with reasoning display enabled the frame is
    written as it came, since the merger throws on its content. *)
Lemma C9_parsed_frames_written_as_they_came :
  @JSON_parse lite (slice 6 "data:  null") = Some JNull /\
  handle_line (js := lite) false "data:  null" false =
    (["data:  null" ++ NL ++ NL], false) /\
  DATA_PREFIX ++ @JSON_stringify lite JNull ++ NL ++ NL = "data: null" ++ NL ++ NL /\
  @JSON_parse lite (slice 6 Scenario.throwing_frame) =
    Some (JObj [("choices",
                 JArr [JObj [("delta",
                              JObj [("reasoning_content", JStr "r");
                                    ("content", JObj [("toString", JNum "1")])])]])]) /\
  fst (handle_line (js := lite) true Scenario.throwing_frame false) =
    [Scenario.throwing_frame ++ NL ++ NL].
Proof.
  split; [reflexivity|]. split; [reflexivity|]. split; [reflexivity|].
  split; reflexivity.
Qed.

(** C9, amended.  For a data frame without the sentinel text whose payload
    parses: when the value is null the frame is written as it came; otherwise,
    unless reasoning display is enabled and a fragment of its delta cannot be
    converted to a string, exactly one frame is written, the printed form of
    the parsed object, either unmodified or with the content of its delta
    assigned and the reasoning field of its delta deleted.  When the merger
    throws, the frame is written as it came.  A frame whose delta is an
    object with neither field is written, in the disabled mode, with the empty
    string appended as content of the delta, and in the enabled mode
    unmodified. *)
Theorem C9_parsed_frame_is_printed_again (js : JSON) (show : bool) (line : string)
  (started : bool) (data : json) :
  startsWith DATA_PREFIX line = true ->
  includes DONE line = false ->
  JSON_parse (slice 6 line) = Some data ->
  (data = JNull -> handle_line show line started = ([line ++ NL ++ NL], started)) /\
  (data <> JNull ->
   (show = true ->
    forall delta : json,
      delta_of data = Some delta ->
      convertible_value (get "reasoning_content" delta) &&
      convertible_value (get "content" delta) = true) ->
   exists (data' : json) (started' : bool),
     handle_line show line started =
       ([DATA_PREFIX ++ JSON_stringify data' ++ NL ++ NL], started') /\
     (data' = data \/
      exists x : json,
        data' = on_delta (fun d => delete "reasoning_content" (set "content" x d)) data)) /\
  (forall delta : json,
      delta_of data = Some delta -> truthy delta = true ->
      fst (merge (get "reasoning_content" delta) (get "content" delta) started) = None ->
      fst (handle_line true line started) = [line ++ NL ++ NL]) /\
  (forall props : list (string * json),
      delta_of data = Some (JObj props) ->
      obj_get "reasoning_content" props = None ->
      obj_get "content" props = None ->
      let data' :=
        on_delta (fun d => delete "reasoning_content" (set "content" (JStr EmptyString) d))
          data in
      handle_line false line started =
        ([DATA_PREFIX ++ JSON_stringify data' ++ NL ++ NL], started) /\
      delta_of data' = Some (JObj (props ++ [("content", JStr EmptyString)])) /\
      handle_line true line started =
        ([DATA_PREFIX ++ JSON_stringify data ++ NL ++ NL], started)).
Proof.
  intros Hp Hd Hj. split; [|split; [|split]].
  - intros ->. now apply handle_line_null.
  - intros Hn Hc. unfold handle_line, try_line. rewrite Hp, Hd, Hj.
    destruct data; try solve [exfalso; apply Hn; reflexivity];
      (destruct (delta_of _) as [delta|] eqn:Hdelta;
       [|eexists _, _; split; [reflexivity | now left]]);
      (destruct (truthy delta); [|eexists _, _; split; [reflexivity | now left]]);
      unfold translate;
      (destruct show;
       [ specialize (Hc eq_refl delta eq_refl);
         apply andb_true_iff in Hc as [Cr Cc];
         destruct (MergerFacts.merge_convertible _ _ started Cr Cc) as [combined E];
         destruct (merge _ _ started) as [[c|] s']; cbn [fst] in E; [|discriminate];
         (destruct (truthy c);
          [ eexists _, _; split; [reflexivity | right; now eexists]
          | eexists _, _; split; [reflexivity | now left] ])
       | eexists _, _; split; [reflexivity | right; now eexists] ]).
  - intros delta Hdelta Ht Hm. unfold handle_line, try_line. rewrite Hp, Hd, Hj.
    destruct data; try discriminate; rewrite Hdelta, Ht; unfold translate;
      destruct (merge _ _ started) as [[c|] s']; cbn [fst] in Hm; try discriminate;
      reflexivity.
  - intros props Hdelta Hr Hc data'. split; [|split].
    + unfold handle_line, try_line. rewrite Hp, Hd, Hj.
      destruct data; try discriminate. rewrite Hdelta.
      cbn [truthy]. unfold translate. cbn [get]. rewrite Hc. reflexivity.
    + unfold data'. rewrite (JsonFacts.delta_of_on_delta _ _ _ Hdelta).
      cbn [set delete]. rewrite JsonFacts.obj_delete_absent.
      * now rewrite JsonFacts.obj_set_absent.
      * now rewrite JsonFacts.obj_get_set_other.
    + unfold handle_line, try_line. rewrite Hp, Hd, Hj.
      destruct data; try discriminate. rewrite Hdelta.
      cbn [truthy]. unfold translate, merge. cbn [get]. rewrite Hr, Hc. reflexivity.
Qed.

Lemma C9_parsed_frame_is_printed_again_witness :
  let delta := JObj [("role", JStr "assistant")] in
  let data := JObj [("choices", JArr [JObj [("delta", delta)]])] in
  startsWith DATA_PREFIX Scenario.role_frame = true /\
  includes DONE Scenario.role_frame = false /\
  @JSON_parse lite (slice 6 Scenario.role_frame) = Some data /\
  delta_of data = Some delta /\
  handle_line (js := lite) false Scenario.role_frame false =
    ([Scenario.event (dq "{'choices':[{'delta':{'role':'assistant','content':''}}]}")],
     false) /\
  handle_line (js := lite) true Scenario.role_frame false =
    ([Scenario.role_frame ++ NL ++ NL], false).
Proof.
  cbv zeta.
  split; [reflexivity|]. split; [reflexivity|]. split; [reflexivity|]. split; [reflexivity|].
  destruct (proj2 (proj2 (proj2
              (C9_parsed_frame_is_printed_again lite false Scenario.role_frame false
                 (JObj [("choices",
                         JArr [JObj [("delta", JObj [("role", JStr "assistant")])]])])
                 eq_refl eq_refl eq_refl)))
              [("role", JStr "assistant")] eq_refl eq_refl eq_refl) as (W & _ & W').
  split; [rewrite W | rewrite W']; reflexivity.
Defined.

(** C10.  An empty string in either field is treated as an absent field:
    the combined content, the pieces and the flag are those of the delta
    without it.  While the span is open, a delta whose content is the empty
    string gives no close marker and leaves the span open.  When neither
    field holds a fragment the parsed object is written back unmodified.  In
    the stream of a reasoning frame followed by a frame with empty content,
    the second frame goes out with its empty content and the span is still
    open at the end. *)
Theorem C10_empty_fragment_is_absent :
  (forall (content : value) (started : bool),
      merge (Some (JStr EmptyString)) content started = merge None content started /\
      merge_pieces (Some (JStr EmptyString)) content started =
        merge_pieces None content started) /\
  (forall (reasoning : value) (started : bool),
      merge reasoning (Some (JStr EmptyString)) started = merge reasoning None started /\
      merge_pieces reasoning (Some (JStr EmptyString)) started =
        merge_pieces reasoning None started) /\
  (forall reasoning : value,
      closes (fst (merge_pieces reasoning (Some (JStr EmptyString)) true)) = 0 /\
      snd (merge_pieces reasoning (Some (JStr EmptyString)) true) = true /\
      snd (merge reasoning (Some (JStr EmptyString)) true) = true) /\
  (forall (data : json) (props : list (string * json)) (started : bool),
      truthy_value (obj_get "reasoning_content" props) = false ->
      truthy_value (obj_get "content" props) = false ->
      translate true data (JObj props) started = (Some data, started)) /\
  run_stream true [Scenario.reasoning_frame "Let"; Scenario.content_frame EmptyString] =
    ({| buffer := EmptyString; reasoningStarted := true |},
     {| written :=
          [Scenario.event (dq "{'choices':[{'delta':{'content':'<think>\nLet'}}]}");
           Scenario.content_frame EmptyString];
        ended := true |}).
Proof.
  split; [|split; [|split; [|split]]].
  - intros content started. split; reflexivity.
  - intros reasoning started. split; reflexivity.
  - intros reasoning. unfold merge, merge_pieces.
    destruct reasoning as [r|]; [destruct (truthy r) eqn:T|];
      cbn [truthy_value truthy nonempty andb negb]; rewrite ?T; cbn; auto.
  - intros data props started Hr Hc. unfold translate, merge. cbn [get]. rewrite Hc.
    destruct (obj_get "reasoning_content" props) as [r|]; cbn [truthy_value] in *;
      rewrite ?Hr; reflexivity.
  - vm_compute. reflexivity.
Qed.

Lemma C10_empty_fragment_is_absent_witness :
  truthy_value (obj_get "reasoning_content" [("content", JStr EmptyString)]) = false /\
  truthy_value (obj_get "content" [("content", JStr EmptyString)]) = false /\
  translate true (JObj [("choices", JArr [JObj [("delta", JObj [("content", JStr EmptyString)])]])])
    (JObj [("content", JStr EmptyString)]) true =
    (Some (JObj [("choices", JArr [JObj [("delta", JObj [("content", JStr EmptyString)])]])]),
     true).
Proof.
  split; [reflexivity|]. split; [reflexivity|].
  destruct C10_empty_fragment_is_absent as (_ & _ & _ & T & _).
  apply T; reflexivity.
Defined.

(** * Further properties of the handlers *)


Section LineFacts.

Context {js : JSON}.
Variable SHOW_REASONING : bool.

(** A line writes one frame when it has the data prefix, none otherwise. *)
Lemma handle_line_count (line : string) (started : bool) :
  List.length (fst (handle_line SHOW_REASONING line started)) =
  if startsWith DATA_PREFIX line then 1 else 0.
Proof.
  unfold handle_line, try_line.
  destruct (startsWith DATA_PREFIX line); [|reflexivity].
  destruct (includes DONE line); [reflexivity|].
  destruct (JSON_parse (slice 6 line)) as [data|]; [|reflexivity].
  destruct data; try reflexivity;
    (destruct (delta_of _) as [delta|]; [|reflexivity]);
    (destruct (truthy delta); [|reflexivity]);
    now destruct (translate SHOW_REASONING _ delta started) as [[printed|] s'].
Qed.

Lemma handle_line_other (line : string) (started : bool) :
  startsWith DATA_PREFIX line = false ->
  handle_line SHOW_REASONING line started = ([], started).
Proof. intros H. unfold handle_line. now rewrite H. Qed.

Lemma prefix_append (p a b : string) : prefix p a = true -> prefix p (a ++ b) = true.
Proof.
  revert a. induction p as [|c p IH]; intros a H; [now destruct (a ++ b)|].
  destruct a as [|x a]; [discriminate|]. cbn in *.
  destruct (ascii_dec c x); [now apply IH | discriminate].
Qed.

(** What a line writes: the line itself and the blank line, or the data
    prefix, a printed value and the blank line. *)
Lemma handle_line_frames (line : string) (started : bool) :
  Forall (fun w => (startsWith DATA_PREFIX line = true /\ w = line ++ NL ++ NL) \/
                   exists v, w = DATA_PREFIX ++ JSON_stringify v ++ NL ++ NL)
    (fst (handle_line SHOW_REASONING line started)).
Proof.
  unfold handle_line, try_line.
  destruct (startsWith DATA_PREFIX line) eqn:Hp; [|constructor].
  assert (V : Forall (fun w => (true = true /\ w = line ++ NL ++ NL) \/
                               exists v, w = DATA_PREFIX ++ JSON_stringify v ++ NL ++ NL)
                [line ++ NL ++ NL]) by (constructor; [now left | constructor]).
  assert (P : forall d,
             Forall (fun w => (true = true /\ w = line ++ NL ++ NL) \/
                              exists v, w = DATA_PREFIX ++ JSON_stringify v ++ NL ++ NL)
               [DATA_PREFIX ++ JSON_stringify d ++ NL ++ NL])
    by (intros d; constructor; [right; now exists d | constructor]).
  destruct (includes DONE line); [exact V|].
  destruct (JSON_parse (slice 6 line)) as [data|]; [|exact V].
  destruct data; try exact V;
    (destruct (delta_of _) as [delta|]; [|apply P]);
    (destruct (truthy delta); [|apply P]);
    (destruct (translate SHOW_REASONING _ delta started) as [[printed|] s'];
     [apply P | exact V]).
Qed.

Lemma handle_lines_count (lines : list string) : forall started,
  List.length (fst (handle_lines SHOW_REASONING lines started)) =
  List.length (filter (startsWith DATA_PREFIX) lines).
Proof.
  induction lines as [|l ls IH]; intros started; [reflexivity|].
  cbn [handle_lines filter].
  pose proof (handle_line_count l started) as C.
  destruct (handle_line SHOW_REASONING l started) as [w s]. cbn [fst] in C.
  specialize (IH s). destruct (handle_lines SHOW_REASONING ls s) as [w' s'].
  cbn [fst] in *. rewrite length_app, C, IH.
  now destruct (startsWith DATA_PREFIX l).
Qed.

Lemma handle_lines_frames (lines : list string) : forall started,
  Forall (fun w => (exists line, In line lines /\ startsWith DATA_PREFIX line = true /\
                                 w = line ++ NL ++ NL) \/
                   exists v, w = DATA_PREFIX ++ JSON_stringify v ++ NL ++ NL)
    (fst (handle_lines SHOW_REASONING lines started)).
Proof.
  induction lines as [|l ls IH]; intros started; [constructor|].
  cbn [handle_lines].
  pose proof (handle_line_frames l started) as F.
  destruct (handle_line SHOW_REASONING l started) as [w s]. cbn [fst] in F.
  specialize (IH s). destruct (handle_lines SHOW_REASONING ls s) as [w' s'].
  cbn [fst] in *. apply Forall_app. split.
  - eapply Forall_impl; [|exact F]. intros x [[H1 H2]|H]; [left | now right].
    exists l. split; [now left | now split].
  - eapply Forall_impl; [|exact IH]. intros x [(line & H1 & H2)|H]; [left | now right].
    exists line. split; [now right | exact H2].
Qed.

(** The response of a stream is the writes for the lines handed on. *)
Lemma stream_written (chunks : list string) :
  written (snd (stream SHOW_REASONING chunks)) =
  fst (handle_lines SHOW_REASONING (fst (Splitter.feed_all EmptyString chunks)) false).
Proof.
  unfold stream. rewrite pump_feed_all.
  cbn [buffer reasoningStarted initial written fresh app].
  destruct (Splitter.feed_all EmptyString chunks) as [lines carry]. cbn [fst].
  now destruct (handle_lines SHOW_REASONING lines false).
Qed.

End LineFacts.

(** In the disabled mode a line is handled without looking at the flag
    and without changing it. *)
Lemma handle_line_disabled {js : JSON} (line : string) (started : bool) :
  handle_line false line started = (fst (handle_line false line false), started).
Proof.
  unfold handle_line, try_line.
  destruct (startsWith DATA_PREFIX line); [|reflexivity].
  destruct (includes DONE line); [reflexivity|].
  destruct (JSON_parse (slice 6 line)) as [data|]; [|reflexivity].
  destruct data; try reflexivity;
    (destruct (delta_of _) as [delta|]; [|reflexivity]);
    now destruct (truthy delta).
Qed.

(** X1.  Chunks that end on character boundaries can be cut anywhere
    else, inside a line or inside the sentinel: the stream leaves the state
    and the response that the same bytes leave when they come as one chunk. *)
Theorem X1_chunks_on_character_boundaries (js : JSON) (show : bool)
  (chunks : list string) :
  Forall (fun c => Utf8.ends_on_boundary c = true) chunks ->
  stream show chunks = stream show [Splitter.whole chunks].
Proof.
  intros H. unfold stream.
  rewrite (pump_on_boundaries show chunks initial fresh eq_refl H).
  cbn [pump]. now destruct (on_data show (Splitter.whole chunks) initial fresh).
Qed.

Lemma X1_chunks_on_character_boundaries_witness :
  Forall (fun c => Utf8.ends_on_boundary c = true)
    [Scenario.reasoning_frame "Let"; "data: [DO"; "NE]" ++ NL] /\
  stream (js := lite) true [Scenario.reasoning_frame "Let"; "data: [DO"; "NE]" ++ NL] =
  stream (js := lite) true
    [Splitter.whole [Scenario.reasoning_frame "Let"; "data: [DO"; "NE]" ++ NL]].
Proof.
  assert (H : Forall (fun c => Utf8.ends_on_boundary c = true)
                [Scenario.reasoning_frame "Let"; "data: [DO"; "NE]" ++ NL])
    by (repeat constructor).
  split; [exact H|].
  exact (X1_chunks_on_character_boundaries lite true _ H).
Defined.

(** X2.  A stream of ASCII bytes can be cut into chunks anywhere: the
    response and the state are those of the bytes as one chunk. *)
Theorem X2_ascii_chunks_cut_anywhere (js : JSON) (show : bool) (chunks : list string) :
  Forall (fun c => is_ascii c = true) chunks ->
  stream show chunks = stream show [Splitter.whole chunks].
Proof.
  intros H. unfold stream.
  rewrite (pump_on_boundaries show chunks initial fresh eq_refl).
  - cbn [pump]. now destruct (on_data show (Splitter.whole chunks) initial fresh).
  - eapply Forall_impl; [|exact H]. intros c. apply StreamFacts.is_ascii_on_boundary.
Qed.

Lemma X2_ascii_chunks_cut_anywhere_witness :
  Forall (fun c => is_ascii c = true) ["data: {"; "oops"; NL ++ "da"; "ta: [DONE]" ++ NL] /\
  stream (js := lite) false ["data: {"; "oops"; NL ++ "da"; "ta: [DONE]" ++ NL] =
  stream (js := lite) false
    [Splitter.whole ["data: {"; "oops"; NL ++ "da"; "ta: [DONE]" ++ NL]].
Proof.
  assert (H : Forall (fun c => is_ascii c = true)
                ["data: {"; "oops"; NL ++ "da"; "ta: [DONE]" ++ NL])
    by (repeat constructor).
  split; [exact H|].
  exact (X2_ascii_chunks_cut_anywhere lite false _ H).
Defined.

(** X3.  The splitter loses no text and adds none: the lines handed on
    over any chunks, joined by line feeds and followed by the carry-over, are
    the initial carry-over followed by the decoded chunks.  No line handed on
    holds a line feed, and neither does the carry-over of a stream. *)
Theorem X3_splitter_keeps_all_text (buffer : string) (chunks : list string) :
  String.concat NL (fst (Splitter.feed_all buffer chunks) ++
                    [snd (Splitter.feed_all buffer chunks)]) =
    buffer ++ Splitter.whole (map Utf8.toString chunks) /\
  Forall (fun l => has_lf l = false) (fst (Splitter.feed_all buffer chunks)) /\
  has_lf (snd (Splitter.feed_all EmptyString chunks)) = false.
Proof.
  split; [|split].
  - apply StreamFacts.feed_all_concat.
  - apply StreamFacts.feed_all_lines_no_lf.
  - now apply StreamFacts.feed_all_carry_no_lf.
Qed.

(** X4.  Over any stream and in both modes, exactly one frame is written
    for each line with the data prefix that the splitter hands on, and none
    for any other line, whatever the payload holds. *)
Theorem X4_one_frame_per_data_line (js : JSON) (show : bool) (chunks : list string) :
  List.length (written (snd (stream show chunks))) =
  List.length (filter (startsWith DATA_PREFIX) (fst (Splitter.feed_all EmptyString chunks))).
Proof. rewrite stream_written. apply handle_lines_count. Qed.

(** X5.  Every write of a stream is framed as one event.  It is either a
    line with the data prefix that the splitter handed on, which holds no
    line feed, followed by the blank line; or the data prefix, one value
    printed by [JSON.stringify], and the blank line. *)
Theorem X5_every_write_is_framed (js : JSON) (show : bool) (chunks : list string) :
  Forall (fun w => (exists line,
                       In line (fst (Splitter.feed_all EmptyString chunks)) /\
                       has_lf line = false /\
                       startsWith DATA_PREFIX line = true /\
                       w = line ++ NL ++ NL) \/
                   exists v, w = DATA_PREFIX ++ JSON_stringify v ++ NL ++ NL)
    (written (snd (stream show chunks))).
Proof.
  rewrite stream_written.
  pose proof (StreamFacts.feed_all_lines_no_lf chunks EmptyString) as Hl.
  eapply Forall_impl; [|apply handle_lines_frames].
  intros w [(line & Hin & Hp & Hw)|H]; [left | now right].
  exists line. split; [exact Hin|]. split; [|now split].
  rewrite Forall_forall in Hl. now apply Hl.
Qed.

(** X6.  With reasoning display disabled the lines are handled one by one
    without memory: what is written for a line depends on that line alone,
    and the flag is never raised, whatever the stream holds. *)
Theorem X6_disabled_mode_keeps_no_state (js : JSON) :
  (forall (lines : list string) (started : bool),
      handle_lines false lines started =
        (flat_map (fun l => fst (handle_line false l false)) lines, started)) /\
  (forall chunks : list string, reasoningStarted (fst (stream false chunks)) = false).
Proof.
  assert (L : forall (lines : list string) (started : bool),
             handle_lines false lines started =
               (flat_map (fun l => fst (handle_line false l false)) lines, started)).
  { induction lines as [|l ls IH]; intros started; [reflexivity|].
    cbn [handle_lines flat_map]. rewrite handle_line_disabled, IH. reflexivity. }
  split; [exact L|].
  intros chunks. unfold stream. rewrite pump_feed_all.
  cbn [buffer reasoningStarted initial].
  destruct (Splitter.feed_all EmptyString chunks) as [lines carry].
  now rewrite L.
Qed.

(** X7.  Lines without the data prefix (blank lines between events,
    comments, other fields of the framing) change nothing: the writes and the
    flag are those of the stream of lines with them removed. *)
Theorem X7_other_lines_are_dropped (js : JSON) (show : bool) (lines : list string)
  (started : bool) :
  handle_lines show lines started =
  handle_lines show (filter (startsWith DATA_PREFIX) lines) started.
Proof.
  revert started. induction lines as [|l ls IH]; intros started; [reflexivity|].
  cbn [filter]. destruct (startsWith DATA_PREFIX l) eqn:E.
  - cbn [handle_lines]. destruct (handle_line show l started) as [w s].
    now rewrite IH.
  - cbn [handle_lines]. rewrite (handle_line_other show l started E).
    rewrite IH. now destruct (handle_lines show _ started).
Qed.

(** ** Whole runs of the merger *)

Module RunFacts.

Lemma merge_all_app (a b : list (value * value)) : forall started,
  merge_all (a ++ b) started =
  (fst (merge_all a started) ++ fst (merge_all b (snd (merge_all a started))),
   snd (merge_all b (snd (merge_all a started)))).
Proof.
  induction a as [|[r c] rest IH]; intros started; cbn [app merge_all].
  - cbn [fst snd append]. now destruct (merge_all b started).
  - destruct (merge r c started) as [t s1]. rewrite IH.
    destruct (merge_all rest s1) as [t' s2]. cbn [fst snd].
    now rewrite append_assoc.
Qed.

(** Reasoning fragments while the span is open: their texts. *)
Lemma reasoning_run_open (rs : list string) :
  merge_all (map reasoning_delta rs) true = (Splitter.whole rs, true).
Proof.
  induction rs as [|r rs IH]; [reflexivity|].
  cbn [map merge_all reasoning_delta].
  replace (merge (Some (JStr r)) None true) with (Some (JStr r), true) by now destruct r.
  now rewrite IH.
Qed.

(** Content fragments while the span is closed: their texts. *)
Lemma content_run_closed (cs : list string) :
  merge_all (map content_delta cs) false = (Splitter.whole cs, false).
Proof.
  induction cs as [|c cs IH]; [reflexivity|].
  cbn [map merge_all content_delta].
  replace (merge None (Some (JStr c)) false) with (Some (JStr c), false)
    by now destruct c.
  now rewrite IH.
Qed.

End RunFacts.

(** X8.  A run of reasoning fragments followed by a run of content
    fragments, none of them empty, is merged into the open marker, the
    reasoning texts, the close marker and the content texts; each marker
    comes once.  When no content follows, the close marker never comes and
    the span is left open. *)
Theorem X8_reasoning_then_content_run (r : string) (rs : list string) (cs : list string) :
  nonempty r = true ->
  forallb nonempty cs = true ->
  merge_all (map reasoning_delta (r :: rs) ++ map content_delta cs) false =
    (THINK_OPEN ++ Splitter.whole (r :: rs) ++
     match cs with
     | [] => EmptyString
     | _ :: _ => THINK_CLOSE ++ Splitter.whole cs
     end,
     match cs with
     | [] => true
     | _ :: _ => false
     end).
Proof.
  intros Hr Hcs. rewrite RunFacts.merge_all_app.
  assert (R : merge_all (map reasoning_delta (r :: rs)) false =
              (THINK_OPEN ++ Splitter.whole (r :: rs), true)).
  { cbn [map merge_all reasoning_delta].
    replace (merge (Some (JStr r)) None false) with (Some (JStr (THINK_OPEN ++ r)), true)
      by (unfold merge; cbn [truthy_value truthy]; now rewrite Hr).
    cbn [toText].
    rewrite RunFacts.reasoning_run_open.
    change (Splitter.whole (r :: rs)) with (r ++ Splitter.whole rs).
    now rewrite append_assoc. }
  rewrite R. cbn [fst snd].
  destruct cs as [|c cs].
  - cbn. now rewrite !append_empty_r.
  - cbn [forallb] in Hcs. apply andb_true_iff in Hcs as [Hc _].
    cbn [map merge_all content_delta].
    replace (merge None (Some (JStr c)) true) with (Some (JStr (THINK_CLOSE ++ c)), false)
      by (unfold merge; cbn [truthy_value truthy]; now rewrite Hc).
    cbn [toText].
    rewrite RunFacts.content_run_closed. cbn [fst snd].
    change (Splitter.whole (c :: cs)) with (c ++ Splitter.whole cs).
    now rewrite !append_assoc.
Qed.

Lemma X8_reasoning_then_content_run_witness :
  nonempty "Let" = true /\
  forallb nonempty ["4"; "2"] = true /\
  merge_all (map reasoning_delta ["Let"; " me think"] ++ map content_delta ["4"; "2"]) false =
    (THINK_OPEN ++ "Let me think" ++ THINK_CLOSE ++ "42", false).
Proof.
  split; [reflexivity|]. split; [reflexivity|].
  exact (X8_reasoning_then_content_run "Let" [" me think"] ["4"; "2"] eq_refl eq_refl).
Defined.

(** ** The chat completions endpoint *)

Module MappingFacts.
Import Proxy.

(** The names of the table are not empty, and neither are its targets. *)
Lemma own_nonempty (name target : string) :
  own name MODEL_MAPPING = Some target -> nonempty name = true /\ nonempty target = true.
Proof.
  intros H. split.
  - destruct name; [discriminate | reflexivity].
  - cbn in H.
    repeat match type of H with
           | (if ?c then _ else _) = _ => destruct c; [injection H as <-; reflexivity|]
           end.
    discriminate.
Qed.

(** No name of the table is a member of [Object.prototype]. *)
Lemma inherited_not_own (name : string) :
  existsb (String.eqb name) OBJECT_PROTOTYPE = true -> own name MODEL_MAPPING = None.
Proof.
  intros H. cbn in H.
  repeat match type of H with
         | (?c || _) = true =>
             let E := fresh "E" in
             destruct c eqn:E; [apply String.eqb_eq in E; subst name; reflexivity|];
             cbn [orb] in H
         end.
  discriminate.
Qed.

End MappingFacts.

Section EndpointFacts.
Import Proxy.

Context {js : JSON}.
Variable SHOW_REASONING : bool.
Variable ENABLE_THINKING_MODE : bool.
Variable NIM_API_KEY : option string.
Variable toLowerCase : string -> string.
Variable TypeError_message : site -> string.
Variable Date_now : nat -> N.
Variable probe_status : json -> option N.
Variable post_json : nim_request -> posted json.
Variable post_stream : nim_request -> posted upstream_stream.

Local Abbreviation chat :=
  (chat_completions SHOW_REASONING ENABLE_THINKING_MODE NIM_API_KEY toLowerCase
     TypeError_message Date_now probe_status post_json post_stream).
Local Abbreviation select :=
  (select_model NIM_API_KEY toLowerCase TypeError_message probe_status).
Local Abbreviation bearer := (authorization NIM_API_KEY).

(** Without one of the fields nothing is called. *)
Lemma chat_without_fields (b : json) :
  truthy_value (get "model" b) && truthy_value (get "messages" b) = false ->
  fst (chat (Some b)) = [].
Proof.
  intros H. unfold chat_completions.
  destruct (key_configured NIM_API_KEY); [|reflexivity]. cbn [negb].
  destruct b; try reflexivity;
    (destruct (get "model" _) as [model|]; [|reflexivity]);
    (destruct (get "messages" _) as [messages|]; [|reflexivity]);
    cbn [truthy_value] in H;
    destruct (truthy model), (truthy messages); try discriminate; reflexivity.
Qed.

(** The calls of the selection: none, or the trial request. *)
Lemma select_model_calls (model : json) :
  fst (select model) = [] \/ fst (select model) = [Probe bearer (probe_body model)].
Proof.
  unfold select_model.
  destruct (convertible model); [|now left]. cbn [negb].
  destruct (model_truthy (mapping_get model)); [now left|].
  destruct (probe_accepts probe_status model && truthy model); [now right|].
  destruct model; now right.
Qed.

(** The calls of the handler once the fields are there: those of the
    selection, then the main request unless the selection threw. *)
Lemma chat_calls (b model messages : json) :
  key_configured NIM_API_KEY = true ->
  get "model" b = Some model -> truthy model = true ->
  get "messages" b = Some messages -> truthy messages = true ->
  b <> JNull ->
  fst (chat (Some b)) =
    match snd (select model) with
    | inl nimModel =>
        (fst (select model) ++
         [Completion bearer
            (nimRequest ENABLE_THINKING_MODE nimModel messages (get "temperature" b)
               (get "max_tokens" b) (get "stream" b))])%list
    | inr _ => fst (select model)
    end.
Proof.
  intros Hk Hm Htm Hs Hts Hb. unfold chat_completions. rewrite Hk. cbn [negb].
  destruct b; try contradiction; rewrite Hm, Hs, Htm, Hts; cbn [negb orb];
    (destruct (select model) as [calls [nimModel|error]]; cbn [fst snd]; [|reflexivity]);
    (destruct (truthy_value _);
     [ destruct (post_stream _) as [status upstream|error];
       [destruct (400 <=? status)%N|]; reflexivity
     | destruct (post_json _) as [status data|error];
       [destruct (400 <=? status)%N; [reflexivity|];
        destruct (openaiResponse _ _ _ _); reflexivity
       | reflexivity] ]).
Qed.

(** X9.  The handler calls the backend only when the key is configured
    and the body holds a truthy model and truthy messages: without the key,
    or without one of the fields, it replies without any upstream call. *)
Theorem X9_no_call_without_key_and_fields (body : value) :
  fst (chat body) <> [] ->
  key_configured NIM_API_KEY = true /\
  exists b model messages : json,
    body = Some b /\
    get "model" b = Some model /\ truthy model = true /\
    get "messages" b = Some messages /\ truthy messages = true.
Proof.
  unfold chat_completions.
  destruct (key_configured NIM_API_KEY); cbn [negb]; [|intros H; now contradiction H].
  destruct body as [b|]; [|intros H; now contradiction H].
  intros H. split; [reflexivity|].
  destruct b; try (now contradiction H);
    (destruct (get "model" _) as [model|] eqn:Hm;
     [|try destruct (get "messages" _); now contradiction H]);
    (destruct (get "messages" _) as [messages|] eqn:Hs; [|now contradiction H]);
    (destruct (truthy model) eqn:Htm; [|now contradiction H]);
    (destruct (truthy messages) eqn:Hts; [|now contradiction H]);
    eexists _, model, messages; repeat split; try eassumption; reflexivity.
Qed.

(** X10.  A request makes at most two upstream calls, all with the
    bearer key: the main request, preceded by the trial request when the
    model is not in the table; or the trial request alone, when the model
    then turns out to be no string. *)
Theorem X10_at_most_a_trial_and_a_main_call (body : value) :
  fst (chat body) = [] \/
  (exists rq, fst (chat body) = [Completion bearer rq]) \/
  (exists model, fst (chat body) = [Probe bearer (probe_body model)]) \/
  (exists model rq,
      fst (chat body) = [Probe bearer (probe_body model); Completion bearer rq]).
Proof.
  destruct (key_configured NIM_API_KEY) eqn:Hk;
    [|left; unfold chat_completions; now rewrite Hk].
  destruct body as [b|]; [|left; unfold chat_completions; now rewrite Hk].
  destruct (truthy_value (get "model" b) && truthy_value (get "messages" b)) eqn:F;
    [|left; now apply chat_without_fields].
  apply andb_true_iff in F as [Fm Fs].
  destruct (get "model" b) as [model|] eqn:Hm; [|discriminate].
  destruct (get "messages" b) as [messages|] eqn:Hs; [|discriminate].
  cbn [truthy_value] in Fm, Fs. pose proof Fm as Htm. pose proof Fs as Hts.
  assert (Hb : b <> JNull) by (intros ->; discriminate).
  rewrite (chat_calls b model messages Hk Hm Htm Hs Hts Hb).
  destruct (select_model_calls model) as [E|E]; rewrite E;
    destruct (snd (select model)) as [nimModel|error]; cbn [app]; eauto 6.
Qed.

(** X11.  A model of the table is sent to the backend under the name the
    table gives it, in a single call: no trial request is made and the
    fallback names are not used. *)
Theorem X11_mapped_model_goes_out_under_its_target (b messages : json)
  (name target : string) :
  key_configured NIM_API_KEY = true ->
  get "model" b = Some (JStr name) ->
  own name MODEL_MAPPING = Some target ->
  get "messages" b = Some messages -> truthy messages = true ->
  fst (chat (Some b)) =
    [Completion bearer
       (nimRequest ENABLE_THINKING_MODE (Plain (JStr target)) messages
          (get "temperature" b) (get "max_tokens" b) (get "stream" b))].
Proof.
  intros Hk Hm Ho Hs Hts.
  destruct (MappingFacts.own_nonempty name target Ho) as [Hn Ht].
  assert (Hb : b <> JNull) by (intros ->; discriminate).
  rewrite (chat_calls b (JStr name) messages Hk Hm Hn Hs Hts Hb).
  unfold select_model, mapping_get. cbn [convertible negb toText]. rewrite Ho.
  cbn [model_truthy truthy]. rewrite Ht. reflexivity.
Qed.

(** X12.  A model that is a string outside the table, and no member of
    [Object.prototype], costs a trial request first; the main request then
    carries the model itself when the trial was accepted (a status from 200
    to 299), and otherwise the fallback chosen from its lower-cased name. *)
Theorem X12_unmapped_model_is_tried_then_sent (b messages : json) (name : string) :
  key_configured NIM_API_KEY = true ->
  get "model" b = Some (JStr name) -> nonempty name = true ->
  own name MODEL_MAPPING = None ->
  existsb (String.eqb name) OBJECT_PROTOTYPE = false ->
  get "messages" b = Some messages -> truthy messages = true ->
  fst (chat (Some b)) =
    [Probe bearer (probe_body (JStr name));
     Completion bearer
       (nimRequest ENABLE_THINKING_MODE
          (Plain (JStr (if probe_accepts probe_status (JStr name)
                        then name
                        else fallback (toLowerCase name))))
          messages (get "temperature" b) (get "max_tokens" b) (get "stream" b))].
Proof.
  intros Hk Hm Hn Ho He Hs Hts.
  assert (Hb : b <> JNull) by (intros ->; discriminate).
  rewrite (chat_calls b (JStr name) messages Hk Hm Hn Hs Hts Hb).
  unfold select_model, mapping_get. cbn [convertible negb toText]. rewrite Ho, He.
  cbn [model_truthy truthy]. rewrite Hn.
  now destruct (probe_accepts probe_status (JStr name)).
Qed.

(** X13.  A model named like a member of [Object.prototype] is found by
    the lookup in the table, which sees inherited members: no trial request
    is made, no fallback is chosen, and the main request carries that member
    in place of a model name. *)
Theorem X13_inherited_member_passes_for_a_mapping (b messages : json) (name : string) :
  key_configured NIM_API_KEY = true ->
  get "model" b = Some (JStr name) ->
  In name OBJECT_PROTOTYPE ->
  get "messages" b = Some messages -> truthy messages = true ->
  fst (chat (Some b)) =
    [Completion bearer
       (nimRequest ENABLE_THINKING_MODE (Inherited name) messages
          (get "temperature" b) (get "max_tokens" b) (get "stream" b))].
Proof.
  intros Hk Hm Hin Hs Hts.
  assert (He : existsb (String.eqb name) OBJECT_PROTOTYPE = true).
  { apply existsb_exists. exists name. split; [exact Hin | apply String.eqb_refl]. }
  assert (Hn : nonempty name = true).
  { destruct name; [|reflexivity]. cbn in He. discriminate. }
  assert (Hb : b <> JNull) by (intros ->; discriminate).
  rewrite (chat_calls b (JStr name) messages Hk Hm Hn Hs Hts Hb).
  unfold select_model, mapping_get. cbn [convertible negb toText].
  rewrite (MappingFacts.inherited_not_own name He), He. reflexivity.
Qed.

(** The reply of the catch block is an error body with its status. *)
Lemma caught_is_error (error : thrown) :
  exists status msg details, caught error = JsonReply status (error_body msg status details).
Proof. unfold caught. eauto. Qed.

(** X14.  Every JSON reply of the handler is either the translated
    completion with status 200, or an error body whose code is the status of
    the reply and whose type is invalid_request_error. *)
Theorem X14_error_code_is_the_status (body : value) (status : N) (reply_body : json) :
  snd (chat body) = JsonReply status reply_body ->
  (exists msg details, reply_body = error_body msg status details) \/
  (status = 200%N /\
   exists model data, openaiResponse SHOW_REASONING Date_now model data = inl reply_body).
Proof.
  assert (C : forall error,
             caught error = JsonReply status reply_body ->
             exists msg details, reply_body = error_body msg status details).
  { intros error H. destruct (caught_is_error error) as (s & msg & details & E).
    rewrite E in H. injection H as -> <-. eauto. }
  assert (U : forall s d,
             upstream_error s d = JsonReply status reply_body ->
             exists msg details, reply_body = error_body msg status details).
  { intros s d H. unfold upstream_error in H. injection H as -> <-. eauto. }
  unfold chat_completions.
  destruct (key_configured NIM_API_KEY); cbn [negb snd];
    [|intros H; injection H as <- <-; eauto].
  destruct body as [b|]; [|intros H; left; now apply C in H].
  destruct b; cbn [get snd];
    try (intros H; left; now apply C in H);
    try (intros H; injection H as <- <-; now eauto);
    (destruct (obj_get "model" props) as [model|];
     [|intros H; injection H as <- <-; now eauto]);
    (destruct (obj_get "messages" props) as [messages|];
     [|intros H; injection H as <- <-; now eauto]);
    (destruct (negb (truthy model) || negb (truthy messages));
     [intros H; injection H as <- <-; now eauto|]);
    (destruct (select model) as [calls [nimModel|error]];
     [|intros H; left; now apply C in H]);
    (destruct (truthy_value _);
     [ destruct (post_stream _) as [s upstream|error];
       [destruct (400 <=? s)%N; [intros H; left; now apply U in H | discriminate]
       | intros H; left; now apply C in H]
     | destruct (post_json _) as [s data|error];
       [ destruct (400 <=? s)%N; [intros H; left; now apply U in H|];
         destruct (openaiResponse _ _ model data) as [r|w] eqn:E;
         [ intros H; injection H as <- <-; right; split; [reflexivity | eauto]
         | intros H; left; now apply C in H ]
       | intros H; left; now apply C in H ] ]).
Qed.

End EndpointFacts.

Lemma X9_no_call_without_key_and_fields_witness :
  fst (ProxyScenario.serve false (Some (ProxyScenario.ask "gpt-4"))) <> [] /\
  Proxy.key_configured (Some "k") = true /\
  exists b model messages : json,
    Some (ProxyScenario.ask "gpt-4") = Some b /\
    get "model" b = Some model /\ truthy model = true /\
    get "messages" b = Some messages /\ truthy messages = true.
Proof.
  assert (H : fst (ProxyScenario.serve false (Some (ProxyScenario.ask "gpt-4"))) <> [])
    by discriminate.
  split; [exact H|].
  exact (X9_no_call_without_key_and_fields (js := lite) false false (Some "k") Proxy.lower
           ProxyScenario.engine_message ProxyScenario.clock ProxyScenario.trial
           ProxyScenario.backend_json ProxyScenario.backend_stream _ H).
Defined.

Lemma X11_mapped_model_goes_out_under_its_target_witness :
  Proxy.own "gpt-4" Proxy.MODEL_MAPPING = Some "deepseek-ai/deepseek-v3.1-terminus" /\
  fst (ProxyScenario.serve false (Some (ProxyScenario.ask "gpt-4"))) =
    [Proxy.Completion "Bearer k"
       {| Proxy.rq_model := Proxy.Plain (JStr "deepseek-ai/deepseek-v3.1-terminus");
          Proxy.rq_messages :=
            JArr [JObj [("role", JStr "user"); ("content", JStr "6 x 7?")]];
          Proxy.rq_temperature := JNum "0.6";
          Proxy.rq_max_tokens := JNum "9024";
          Proxy.rq_stream := JBool false;
          Proxy.rq_extra_body := None |}].
Proof.
  split; [reflexivity|].
  exact (X11_mapped_model_goes_out_under_its_target (js := lite) false false (Some "k")
           Proxy.lower ProxyScenario.engine_message ProxyScenario.clock ProxyScenario.trial
           ProxyScenario.backend_json ProxyScenario.backend_stream
           (ProxyScenario.ask "gpt-4") _ "gpt-4" _ eq_refl eq_refl eq_refl eq_refl eq_refl).
Defined.

Lemma X12_unmapped_model_is_tried_then_sent_witness :
  Proxy.own "My-Claude-Opus" Proxy.MODEL_MAPPING = None /\
  existsb (String.eqb "My-Claude-Opus") Proxy.OBJECT_PROTOTYPE = false /\
  fst (ProxyScenario.serve false (Some (ProxyScenario.ask "My-Claude-Opus"))) =
    [Proxy.Probe "Bearer k" (Proxy.probe_body (JStr "My-Claude-Opus"));
     Proxy.Completion "Bearer k"
       (Proxy.nimRequest false (Proxy.Plain (JStr "meta/llama-3.1-405b-instruct"))
          (JArr [JObj [("role", JStr "user"); ("content", JStr "6 x 7?")]])
          None None None)] /\
  fst (ProxyScenario.serve false (Some (ProxyScenario.ask "qwen/qwen3-235b"))) =
    [Proxy.Probe "Bearer k" (Proxy.probe_body (JStr "qwen/qwen3-235b"));
     Proxy.Completion "Bearer k"
       (Proxy.nimRequest false (Proxy.Plain (JStr "qwen/qwen3-235b"))
          (JArr [JObj [("role", JStr "user"); ("content", JStr "6 x 7?")]])
          None None None)].
Proof.
  split; [reflexivity|]. split; [reflexivity|]. split.
  - exact (X12_unmapped_model_is_tried_then_sent (js := lite) false false (Some "k")
             Proxy.lower ProxyScenario.engine_message ProxyScenario.clock
             ProxyScenario.trial ProxyScenario.backend_json ProxyScenario.backend_stream
             (ProxyScenario.ask "My-Claude-Opus") _ "My-Claude-Opus"
             eq_refl eq_refl eq_refl eq_refl eq_refl eq_refl eq_refl).
  - exact (X12_unmapped_model_is_tried_then_sent (js := lite) false false (Some "k")
             Proxy.lower ProxyScenario.engine_message ProxyScenario.clock
             ProxyScenario.trial ProxyScenario.backend_json ProxyScenario.backend_stream
             (ProxyScenario.ask "qwen/qwen3-235b") _ "qwen/qwen3-235b"
             eq_refl eq_refl eq_refl eq_refl eq_refl eq_refl eq_refl).
Defined.

Lemma X13_inherited_member_passes_for_a_mapping_witness :
  In "constructor" Proxy.OBJECT_PROTOTYPE /\
  fst (ProxyScenario.serve false (Some (ProxyScenario.ask "constructor"))) =
    [Proxy.Completion "Bearer k"
       (Proxy.nimRequest false (Proxy.Inherited "constructor")
          (JArr [JObj [("role", JStr "user"); ("content", JStr "6 x 7?")]])
          None None None)].
Proof.
  assert (H : In "constructor" Proxy.OBJECT_PROTOTYPE) by (now left).
  split; [exact H|].
  exact (X13_inherited_member_passes_for_a_mapping (js := lite) false false (Some "k")
           Proxy.lower ProxyScenario.engine_message ProxyScenario.clock ProxyScenario.trial
           ProxyScenario.backend_json ProxyScenario.backend_stream
           (ProxyScenario.ask "constructor") _ "constructor" eq_refl eq_refl H
           eq_refl eq_refl).
Defined.

Lemma X14_error_code_is_the_status_witness :
  snd (ProxyScenario.serve false (Some (JObj [("model", JNum "7"); ("messages", JStr "hi")]))) =
    Proxy.JsonReply 500
      (Proxy.error_body (JStr "model.toLowerCase is not a function") 500 None) /\
  ((exists msg details,
       Proxy.error_body (JStr "model.toLowerCase is not a function") 500 None =
       Proxy.error_body msg 500 details) \/
   (500%N = 200%N /\
    exists model data,
      Proxy.openaiResponse false ProxyScenario.clock model data =
      inl (Proxy.error_body (JStr "model.toLowerCase is not a function") 500 None))).
Proof.
  assert (H : snd (ProxyScenario.serve false
                     (Some (JObj [("model", JNum "7"); ("messages", JStr "hi")]))) =
              Proxy.JsonReply 500
                (Proxy.error_body (JStr "model.toLowerCase is not a function") 500 None))
    by reflexivity.
  split; [exact H|].
  exact (X14_error_code_is_the_status (js := lite) false false (Some "k") Proxy.lower
           ProxyScenario.engine_message ProxyScenario.clock ProxyScenario.trial
           ProxyScenario.backend_json ProxyScenario.backend_stream _ _ _ H).
Defined.

(** ** The translation of a whole completion *)

Module TranslationFacts.
Import Proxy.

Lemma transform_choices_some (show : bool) (choices : list json) :
  (exists r, transform_choices show choices = Some r) <->
  Forall (fun c => exists c', transform_choice show c = Some c') choices.
Proof.
  induction choices as [|c cs IH]; cbn [transform_choices].
  - split; [constructor | eauto].
  - split.
    + intros [r H]. destruct (transform_choice show c) as [c'|] eqn:E; [|discriminate].
      destruct (transform_choices show cs) as [r'|] eqn:E'; [|discriminate].
      constructor; [eauto | apply IH; eauto].
    + intros H. inversion H as [|? ? [c' Hc] Hcs]; subst.
      apply IH in Hcs as [r' Hr]. rewrite Hc, Hr. eauto.
Qed.

Lemma transform_choices_forall2 (show : bool) (choices : list json) : forall r,
  transform_choices show choices = Some r ->
  Forall2 (fun c c' => transform_choice show c = Some c') choices r.
Proof.
  induction choices as [|c cs IH]; cbn [transform_choices]; intros r H.
  - injection H as <-. constructor.
  - destruct (transform_choice show c) as [c'|] eqn:E; [|discriminate].
    destruct (transform_choices show cs) as [r'|] eqn:E'; [|discriminate].
    injection H as <-. constructor; [exact E | now apply IH].
Qed.

(** The choice of the reply, when the callback does not throw. *)
Lemma transform_choice_value (show : bool) (c c' : json) :
  transform_choice show c = Some c' ->
  exists m, get "message" c = Some m /\ m <> JNull /\
    c' = JObj (obj [("index", get "index" c);
                    ("message",
                     Some (JObj (obj [("role", get "role" m);
                                      ("content",
                                       Some (if show && truthy_value (get "reasoning_content" m)
                                             then JStr (THINK_OPEN ++
                                                        toText_value (get "reasoning_content" m) ++
                                                        NL ++ THINK_CLOSE ++
                                                        toText (or_else (get "content" m)
                                                                  (JStr EmptyString)))
                                             else or_else (get "content" m)
                                                    (JStr EmptyString)))])));
                    ("finish_reason", get "finish_reason" c)]).
Proof.
  unfold transform_choice. intros H.
  destruct c; try discriminate;
    (destruct (get "message" _) as [m|] eqn:Hm; [|discriminate]);
    destruct m; try discriminate;
    (match type of H with
     | (if ?g then None else _) = _ => destruct g; [discriminate|]
     end);
    injection H as <-; eexists; (split; [reflexivity|]); (split; [discriminate|]);
    reflexivity.
Qed.

(** What can be read back from an object literal. *)
Lemma get_message_of_choice (i f : value) (msg : json) :
  get "message" (JObj (obj [("index", i); ("message", Some msg); ("finish_reason", f)])) =
  Some msg.
Proof. destruct i, f; reflexivity. Qed.

Lemma get_index_of_choice (i f : value) (msg : json) :
  get "index" (JObj (obj [("index", i); ("message", Some msg); ("finish_reason", f)])) = i.
Proof. destruct i, f; reflexivity. Qed.

Lemma get_finish_of_choice (i f : value) (msg : json) :
  get "finish_reason"
    (JObj (obj [("index", i); ("message", Some msg); ("finish_reason", f)])) = f.
Proof. destruct i, f; reflexivity. Qed.

Lemma get_of_message (role : value) (content : json) :
  get "role" (JObj (obj [("role", role); ("content", Some content)])) = role /\
  get "content" (JObj (obj [("role", role); ("content", Some content)])) = Some content /\
  get "reasoning_content" (JObj (obj [("role", role); ("content", Some content)])) = None.
Proof. destruct role; repeat split. Qed.

End TranslationFacts.

(** X15.  The translation of a whole completion succeeds exactly when the
    answer holds an array of choices and every choice has a message that is
    not null (and, with reasoning display enabled, fragments that can be
    converted to strings): a single choice without message makes the whole
    translation throw, although its content is read with optional chaining. *)
Theorem X15_translation_needs_a_message_in_every_choice (show : bool)
  (Date_now : nat -> N) (model data : json) :
  (exists r, Proxy.openaiResponse show Date_now model data = inl r) <->
  (exists choices,
      get "choices" data = Some (JArr choices) /\
      Forall (fun c =>
                exists m,
                  get "message" c = Some m /\ m <> JNull /\
                  (show && truthy_value (get "reasoning_content" m) = true ->
                   match get "reasoning_content" m with
                   | Some r => convertible r
                   | None => true
                   end &&
                   convertible (Proxy.or_else (get "content" m) (JStr EmptyString)) =
                   true))
        choices).
Proof.
  assert (C : forall c,
             (exists c', Proxy.transform_choice show c = Some c') <->
             exists m,
               get "message" c = Some m /\ m <> JNull /\
               (show && truthy_value (get "reasoning_content" m) = true ->
                match get "reasoning_content" m with
                | Some r => convertible r
                | None => true
                end &&
                convertible (Proxy.or_else (get "content" m) (JStr EmptyString)) =
                true)).
  { intros c. unfold Proxy.transform_choice. split.
    - intros [c' H]. destruct c; try discriminate;
        (destruct (get "message" _) as [m|]; [|discriminate]);
        destruct m; try discriminate; cbn [chain] in H;
        eexists; (split; [reflexivity|]); (split; [discriminate|]);
        intros W; rewrite W in H; cbn [andb] in H;
        (match type of H with
         | (if negb ?g then None else _) = _ => destruct g; [reflexivity | discriminate]
         end).
    - intros (m & Hm & Hn & W).
      destruct c; try discriminate; rewrite Hm;
        destruct m; try contradiction; cbn [chain] in *;
        (destruct (show && truthy_value _);
         [rewrite (W eq_refl); cbn [andb negb]; eauto | cbn [andb]; eauto]). }
  unfold Proxy.openaiResponse. split.
  - intros [r H]. destruct data; try discriminate;
      (destruct (get "choices" _) as [[| | | |choices|]|] eqn:E; try discriminate);
      (destruct (Proxy.transform_choices show choices) as [r'|] eqn:T; [|discriminate]);
      exists choices; (split; [reflexivity|]);
      (eapply Forall_impl; [intros c; apply C|]);
      apply TranslationFacts.transform_choices_some; eauto.
  - intros (choices & Hc & F).
    assert (T : exists r, Proxy.transform_choices show choices = Some r).
    { apply TranslationFacts.transform_choices_some.
      eapply Forall_impl; [intros c; apply C | exact F]. }
    destruct T as [r' T].
    destruct data; try discriminate; rewrite Hc, T; eauto.
Qed.

(** X16.  In a translated completion the model is the one the caller
    asked for, and the choices are those of the answer, as many and in the
    same order, each with its index, its finish reason and the role of its
    message; the message holds no reasoning field in either mode, and with
    reasoning display disabled its content is the content of the answer, or
    the empty string when that is missing or falsy. *)
Theorem X16_translated_choices_follow_the_answer (show : bool) (Date_now : nat -> N)
  (model data r : json) :
  Proxy.openaiResponse show Date_now model data = inl r ->
  get "model" r = Some model /\
  exists choices choices',
    get "choices" data = Some (JArr choices) /\
    get "choices" r = Some (JArr choices') /\
    Forall2 (fun c c' =>
               exists m m',
                 get "message" c = Some m /\ get "message" c' = Some m' /\
                 get "index" c' = get "index" c /\
                 get "finish_reason" c' = get "finish_reason" c /\
                 get "role" m' = get "role" m /\
                 get "reasoning_content" m' = None /\
                 (show = false ->
                  get "content" m' =
                    Some (Proxy.or_else (get "content" m) (JStr EmptyString))))
      choices choices'.
Proof.
  unfold Proxy.openaiResponse. intros H.
  destruct (get "choices" data) as [[| | | |choices|]|] eqn:E;
    try (destruct data; discriminate).
  destruct (Proxy.transform_choices show choices) as [choices'|] eqn:T;
    [|destruct data; discriminate].
  assert (R : r = JObj [("id", JStr ("chatcmpl-" ++ Proxy.decimal (Date_now 0)));
                        ("object", JStr "chat.completion");
                        ("created", JNum (Proxy.decimal (Date_now 1 / 1000)));
                        ("model", model);
                        ("choices", JArr choices');
                        ("usage", Proxy.or_else (get "usage" data) Proxy.no_usage)])
    by (destruct data; try discriminate; now injection H as <-).
  subst r. split; [reflexivity|].
  exists choices, choices'. split; [reflexivity|]. split; [reflexivity|].
  apply TranslationFacts.transform_choices_forall2 in T.
  eapply Forall2_impl; [|exact T]. intros c c' Hc.
  apply TranslationFacts.transform_choice_value in Hc as (m & Hm & Hn & ->).
  eexists m, _. split; [exact Hm|].
  rewrite TranslationFacts.get_message_of_choice, TranslationFacts.get_index_of_choice,
    TranslationFacts.get_finish_of_choice.
  split; [reflexivity|]. split; [reflexivity|]. split; [reflexivity|].
  match goal with
  | |- context [Proxy.obj [("role", ?ro); ("content", Some ?co)]] =>
      destruct (TranslationFacts.get_of_message ro co) as (G1 & G2 & G3)
  end.
  split; [exact G1|]. split; [exact G3|].
  intros ->. exact G2.
Qed.

Lemma X16_translated_choices_follow_the_answer_witness :
  Proxy.openaiResponse false ProxyScenario.clock (JStr "gpt-4") ProxyScenario.answer =
    inl (JObj [("id", JStr "chatcmpl-1700000000123");
               ("object", JStr "chat.completion");
               ("created", JNum "1700000000");
               ("model", JStr "gpt-4");
               ("choices",
                JArr [JObj [("index", JNum "0");
                            ("message",
                             JObj [("role", JStr "assistant"); ("content", JStr "42")]);
                            ("finish_reason", JStr "stop")]]);
               ("usage", Proxy.no_usage)]) /\
  get "model"
    (JObj [("id", JStr "chatcmpl-1700000000123");
           ("object", JStr "chat.completion");
           ("created", JNum "1700000000");
           ("model", JStr "gpt-4");
           ("choices",
            JArr [JObj [("index", JNum "0");
                        ("message",
                         JObj [("role", JStr "assistant"); ("content", JStr "42")]);
                        ("finish_reason", JStr "stop")]]);
           ("usage", Proxy.no_usage)]) = Some (JStr "gpt-4").
Proof.
  assert (H : Proxy.openaiResponse false ProxyScenario.clock (JStr "gpt-4")
                ProxyScenario.answer =
              inl (JObj [("id", JStr "chatcmpl-1700000000123");
                         ("object", JStr "chat.completion");
                         ("created", JNum "1700000000");
                         ("model", JStr "gpt-4");
                         ("choices",
                          JArr [JObj [("index", JNum "0");
                                      ("message",
                                       JObj [("role", JStr "assistant");
                                             ("content", JStr "42")]);
                                      ("finish_reason", JStr "stop")]]);
                         ("usage", Proxy.no_usage)])) by reflexivity.
  split; [exact H|].
  exact (proj1 (X16_translated_choices_follow_the_answer false ProxyScenario.clock _ _ _ H)).
Defined.

(** X17.  With reasoning display enabled the two paths wrap the same
    message differently.  The translation of a whole completion always closes
    the span and puts a line feed between the reasoning and the close marker;
    the merger of the stream puts none, and closes the span only when the
    content is not empty. *)
Theorem X17_whole_completion_and_stream_wrap_differently (choice m : json)
  (r c : string) :
  get "message" choice = Some m ->
  get "reasoning_content" m = Some (JStr r) -> nonempty r = true ->
  get "content" m = Some (JStr c) ->
  (exists choice' m',
      Proxy.transform_choice true choice = Some choice' /\
      get "message" choice' = Some m' /\
      get "content" m' = Some (JStr (THINK_OPEN ++ r ++ NL ++ THINK_CLOSE ++ c))) /\
  merge (get "reasoning_content" m) (get "content" m) false =
    (Some (JStr (THINK_OPEN ++ r ++
                 (if nonempty c then THINK_CLOSE ++ c else EmptyString))),
     negb (nonempty c)).
Proof.
  intros Hm Hr Hn Hc. split.
  - unfold Proxy.transform_choice.
    destruct choice; try discriminate; rewrite Hm;
      destruct m; try discriminate; cbn [chain]; rewrite Hr, Hc;
      cbn [truthy_value truthy]; rewrite Hn; cbn [andb negb toText_value toText];
      (replace (Proxy.or_else (Some (JStr c)) (JStr EmptyString)) with (JStr c)
         by (unfold Proxy.or_else; cbn [truthy]; now destruct c));
      cbn [convertible andb negb toText];
      eexists _, _; (split; [reflexivity|]);
      rewrite TranslationFacts.get_message_of_choice; (split; [reflexivity|]);
      apply TranslationFacts.get_of_message.
  - rewrite Hr, Hc. unfold merge. cbn [truthy_value truthy convertible_value convertible].
    rewrite Hn. cbn [andb negb toText_value toText].
    destruct (nonempty c); cbn [andb negb]; [now rewrite append_assoc|].
    now rewrite append_empty_r.
Qed.

Lemma X17_whole_completion_and_stream_wrap_differently_witness :
  (exists choice' m',
      Proxy.transform_choice true
        (JObj [("message",
                JObj [("content", JStr "42"); ("reasoning_content", JStr "Let me think")])]) =
        Some choice' /\
      get "message" choice' = Some m' /\
      get "content" m' =
        Some (JStr (THINK_OPEN ++ "Let me think" ++ NL ++ THINK_CLOSE ++ "42"))) /\
  merge (Some (JStr "Let me think")) (Some (JStr "42")) false =
    (Some (JStr (THINK_OPEN ++ "Let me think" ++ THINK_CLOSE ++ "42")), false).
Proof.
  exact (X17_whole_completion_and_stream_wrap_differently
           (JObj [("message",
                   JObj [("content", JStr "42");
                         ("reasoning_content", JStr "Let me think")])])
           (JObj [("content", JStr "42"); ("reasoning_content", JStr "Let me think")])
           "Let me think" "42" eq_refl eq_refl eq_refl eq_refl).
Defined.

(** X18.  Every model listed by GET /v1/models, in the order of the
    table, is one the chat endpoint maps without a trial request and without
    a fallback. *)
Theorem X18_listed_models_are_mapped (Date_now : nat -> N) :
  exists entries,
    get "data" (Proxy.list_models Date_now) = Some (JArr entries) /\
    map (get "id") entries = map (fun p => Some (JStr (fst p))) Proxy.MODEL_MAPPING /\
    forall (key : option string) (toLowerCase : string -> string)
           (TypeError_message : Proxy.site -> string) (probe_status : json -> option N)
           (name : string),
      In (Some (JStr name)) (map (get "id") entries) ->
      exists target,
        Proxy.own name Proxy.MODEL_MAPPING = Some target /\
        Proxy.select_model key toLowerCase TypeError_message probe_status (JStr name) =
          ([], inl (Proxy.Plain (JStr target))).
Proof.
  eexists. split; [reflexivity|]. split; [reflexivity|].
  intros key toLowerCase TypeError_message probe_status name H.
  cbn in H.
  repeat match type of H with
         | _ \/ _ => destruct H as [H|H]; [injection H as <-; eexists; split; reflexivity|]
         end.
  contradiction.
Qed.

(** ** The end of a stream, and the models that are no table entries *)

(** X19.  An upstream body that breaks off with an error ends the reply
    exactly as one that ends normally: the writes are those for its chunks,
    the response is ended, and no error frame is written for the caller. *)
Theorem X19_stream_error_ends_like_a_normal_end (js : JSON) (show : bool)
  (chunks : list string) (normally : bool) :
  Proxy.streamed show {| Proxy.chunks_of := chunks; Proxy.ends_normally := normally |} =
    snd (stream show chunks) /\
  ended (Proxy.streamed show
           {| Proxy.chunks_of := chunks; Proxy.ends_normally := normally |}) = true /\
  written (Proxy.streamed show
             {| Proxy.chunks_of := chunks; Proxy.ends_normally := normally |}) =
    fst (handle_lines show (fst (Splitter.feed_all EmptyString chunks)) false).
Proof.
  assert (E : Proxy.streamed show
                {| Proxy.chunks_of := chunks; Proxy.ends_normally := normally |} =
              snd (stream show chunks)).
  { unfold Proxy.streamed, stream. cbn [Proxy.chunks_of Proxy.ends_normally].
    destruct (pump show chunks initial fresh) as [st res].
    now destruct normally. }
  split; [exact E|]. rewrite E. split; [|apply stream_written].
  unfold stream. destruct (pump show chunks initial fresh) as [st res]. reflexivity.
Qed.

Section SelectionFacts.
Import Proxy.

Context {js : JSON}.
Variable SHOW_REASONING : bool.
Variable ENABLE_THINKING_MODE : bool.
Variable NIM_API_KEY : option string.
Variable toLowerCase : string -> string.
Variable TypeError_message : site -> string.
Variable Date_now : nat -> N.
Variable probe_status : json -> option N.
Variable post_json : nim_request -> posted json.
Variable post_stream : nim_request -> posted upstream_stream.

(** X20.  The selection never fails for a model that is a string,
    whatever the trial request does: it yields the target of the table, a
    member of [Object.prototype] of that name, the name itself, or one of the
    three fallback models. *)
Theorem X20_string_model_always_resolves (name : string) :
  exists calls nimModel,
    select_model NIM_API_KEY toLowerCase TypeError_message probe_status (JStr name) =
      (calls, inl nimModel) /\
    ((exists target, own name MODEL_MAPPING = Some target /\ nimModel = Plain (JStr target)) \/
     (In name OBJECT_PROTOTYPE /\ nimModel = Inherited name) \/
     (probe_accepts probe_status (JStr name) = true /\ nimModel = Plain (JStr name)) \/
     In nimModel
        [Plain (JStr "meta/llama-3.1-405b-instruct");
         Plain (JStr "meta/llama-3.1-70b-instruct");
         Plain (JStr "meta/llama-3.1-8b-instruct")]).
Proof.
  unfold select_model, mapping_get. cbn [convertible negb toText].
  destruct (own name MODEL_MAPPING) as [target|] eqn:Ho.
  - cbn [model_truthy truthy]. rewrite (proj2 (MappingFacts.own_nonempty _ _ Ho)).
    eexists _, _. split; [reflexivity|]. left. eauto.
  - destruct (existsb (String.eqb name) OBJECT_PROTOTYPE) eqn:He.
    + cbn [model_truthy]. eexists _, _. split; [reflexivity|]. right; left.
      split; [|reflexivity].
      apply existsb_exists in He as (x & Hin & Hx).
      apply String.eqb_eq in Hx. now subst x.
    + cbn [model_truthy].
      destruct (probe_accepts probe_status (JStr name) && truthy (JStr name)) eqn:Hp.
      * eexists _, _. split; [reflexivity|]. right; right; left.
        apply andb_true_iff in Hp. now split.
      * eexists _, _. split; [reflexivity|]. right; right; right.
        unfold fallback.
        destruct (_ || _ || _); [now left|].
        destruct (_ || _ || _); [right; now left | right; right; now left].
Qed.

(** X21.  A truthy model that is no string (a number, true, an array,
    an object) and no key of the table is sent in the trial request; when the
    trial does not accept it, lower-casing it throws, and the caller gets
    status 500 with the message of that TypeError, with no main request. *)
Theorem X21_model_that_is_no_string_is_a_server_error (b model messages : json) :
  key_configured NIM_API_KEY = true ->
  get "model" b = Some model -> truthy model = true ->
  match model with JStr _ => False | _ => True end ->
  convertible model = true ->
  mapping_get model = None ->
  probe_accepts probe_status model = false ->
  get "messages" b = Some messages -> truthy messages = true ->
  chat_completions SHOW_REASONING ENABLE_THINKING_MODE NIM_API_KEY toLowerCase
    TypeError_message Date_now probe_status post_json post_stream (Some b) =
    ([Probe (authorization NIM_API_KEY) (probe_body model)],
     JsonReply 500
       (error_body
          (JStr (if nonempty (TypeError_message ToLowerCase)
                 then TypeError_message ToLowerCase
                 else "Internal server error"))
          500 None)).
Proof.
  intros Hk Hm Htm Hns Hc Hmap Hp Hs Hts.
  unfold chat_completions. rewrite Hk. cbn [negb].
  assert (S : select_model NIM_API_KEY toLowerCase TypeError_message probe_status model =
              ([Probe (authorization NIM_API_KEY) (probe_body model)],
               inr (type_error TypeError_message ToLowerCase))).
  { unfold select_model. rewrite Hc, Hmap. cbn [negb model_truthy]. rewrite Hp.
    cbn [andb]. destruct model; try contradiction; reflexivity. }
  destruct b; try discriminate; rewrite Hm, Hs, Htm, Hts; cbn [negb orb];
    rewrite S; reflexivity.
Qed.

End SelectionFacts.

Lemma X21_model_that_is_no_string_is_a_server_error_witness :
  Proxy.mapping_get (JNum "7") = None /\
  ProxyScenario.serve false (Some (JObj [("model", JNum "7"); ("messages", JStr "hi")])) =
    ([Proxy.Probe "Bearer k" (Proxy.probe_body (JNum "7"))],
     Proxy.JsonReply 500
       (Proxy.error_body (JStr "model.toLowerCase is not a function") 500 None)).
Proof.
  split; [reflexivity|].
  exact (X21_model_that_is_no_string_is_a_server_error (js := lite) false false (Some "k")
           Proxy.lower ProxyScenario.engine_message ProxyScenario.clock ProxyScenario.trial
           ProxyScenario.backend_json ProxyScenario.backend_stream
           (JObj [("model", JNum "7"); ("messages", JStr "hi")]) (JNum "7") (JStr "hi")
           eq_refl eq_refl eq_refl I eq_refl eq_refl eq_refl eq_refl eq_refl).
Defined.

(** ** The markers of a stream whose fragments are text *)

(** X22.  With reasoning display enabled, over a stream in which the
    fragments of every delta can be converted to strings, as all strings can,
    the markers alternate: at every point of the sequence of pieces the merger
    produces, the open markers so far are at least the close markers and at
    most one more.  The pieces of a delta are the text of its combined
    content, which the frame written for the line carries as the content of
    its delta; when the merger throws there is no piece. *)
Theorem X22_markers_balanced_when_fragments_are_text (js : JSON) :
  (forall (reasoning content : value) (started : bool),
      match fst (merge reasoning content started) with
      | Some combined =>
          toText combined = render (fst (merge_pieces reasoning content started))
      | None => fst (merge_pieces reasoning content started) = []
      end) /\
  (forall (line : string) (started : bool) (data delta combined : json),
      startsWith DATA_PREFIX line = true ->
      includes DONE line = false ->
      JSON_parse (slice 6 line) = Some data ->
      delta_of data = Some delta ->
      truthy delta = true ->
      fst (merge (get "reasoning_content" delta) (get "content" delta) started) =
        Some combined ->
      toText combined = render (line_pieces true line started) /\
      fst (handle_line true line started) =
        [DATA_PREFIX ++
         JSON_stringify
           (if truthy combined
            then on_delta
                   (fun d => delete "reasoning_content" (set "content" combined d)) data
            else data) ++ NL ++ NL]) /\
  (forall (chunks : list string) (before rest : list piece),
      Forall (fun line => convertible_fragments line = true)
        (fst (Splitter.feed_all EmptyString chunks)) ->
      pump_pieces true chunks initial = (before ++ rest)%list ->
      closes before <= opens before <= S (closes before)).
Proof.
  split; [|split].
  - intros reasoning content started.
    destruct (fst (merge reasoning content started)) as [combined|] eqn:E.
    + now apply MergerFacts.merge_render.
    + now apply MergerFacts.merge_thrown.
  - intros line started data delta combined Hp Hd Hj Hdelta Ht Hm.
    pose proof (MergerFacts.merge_render _ _ _ _ Hm) as R.
    unfold line_pieces, handle_line, try_line. rewrite Hp, Hd, Hj. cbn [andb negb].
    destruct data; try discriminate; rewrite Hdelta, Ht; unfold translate;
      (split; [exact R|]);
      destruct (merge _ _ started) as [[c|] s']; cbn [fst] in Hm; try discriminate;
      injection Hm as ->; now destruct (truthy combined).
  - intros chunks before rest Hc H.
    destruct (pump_pieces_alternates true chunks initial Hc) as [final Hf].
    rewrite H, MergerFacts.alternates_app in Hf. cbn [reasoningStarted initial] in Hf.
    destruct (alternates false before) as [mid|] eqn:E; [|discriminate].
    apply MergerFacts.alternates_balance in E. destruct mid; cbn in E; lia.
Qed.

Lemma X22_markers_balanced_when_fragments_are_text_witness :
  Forall (fun line => convertible_fragments (js := lite) line = true)
    (fst (Splitter.feed_all EmptyString Scenario.frames)) /\
  pump_pieces (js := lite) true Scenario.frames initial =
    ([Open; Text "Let"; Text " me think"] ++ [Close; Text "42"])%list /\
  closes [Open; Text "Let"; Text " me think"] <= opens [Open; Text "Let"; Text " me think"]
    <= S (closes [Open; Text "Let"; Text " me think"]).
Proof.
  assert (F : Forall (fun line => convertible_fragments (js := lite) line = true)
                (fst (Splitter.feed_all EmptyString Scenario.frames)))
    by (repeat (constructor; [reflexivity|]); constructor).
  split; [exact F|]. split; [reflexivity|].
  apply (proj2 (proj2 (X22_markers_balanced_when_fragments_are_text lite)) Scenario.frames
           [Open; Text "Let"; Text " me think"] [Close; Text "42"] F).
  reflexivity.
Defined.
